(** * stumpless: the POSIX socket backend of network targets

    A shallow embedding of [src/config/have_sys_socket.c].  The C functions
    become computations in a state-and-failure monad over a [world] that
    holds the operating system's state, the memory in which the
    [struct network_target] objects live, and the chronological trace of
    every system call, mutex operation and error report the code performs.
    The operating system is a parameter ([platform]): every theorem holds
    for whatever [socket], [getaddrinfo], [connect], [send] answer. *)

From stdpp Require Import base option list gmap strings.
From Stdlib Require Import ZArith Lia.

Local Open Scope Z_scope.

(** ** C data *)

(** A [struct network_target *]: either the null pointer or the address of
    an object.  *)
Inductive ptr : Type :=
  | NULL
  | Ptr (l : positive).

Global Instance ptr_eq_dec : EqDecision ptr.
Proof. solve_decision. Defined.

Inductive transport_protocol : Type := TCP | UDP.
Inductive network_protocol : Type := IPv4 | IPv6.

(** Modelled from the spec: the declaration of [struct network_target]
    (private/target/network.h) is missing.  The fields are those of the
    spec's data model; the mutex embedded in the structure is identified
    with the address of the structure that holds it. *)
Record network_target : Type := mk_network_target {
  destination : string;
  port : string;
  transport : transport_protocol;
  family : network_protocol;
  handle : Z
}.

Definition set_handle (h : Z) (t : network_target) : network_target :=
  {| destination := destination t;
     port := port t;
     transport := transport t;
     family := family t;
     handle := h |}.

(** The C type [int], 32 bits wide. *)
Definition INT_MIN : Z := -2147483648.
Definition INT_MAX : Z := 2147483647.

(** Conversion of a wider signed integer (an [ssize_t]) to [int].  The
    value is kept when it fits; otherwise the result is implementation
    defined, and is the reduction modulo 2^32 that gcc and clang perform. *)
Definition to_int (z : Z) : Z :=
  (z - INT_MIN) mod 4294967296 + INT_MIN.

(** [struct addrinfo] of <netdb.h>; pointers are integers, 0 is NULL. *)
Record addrinfo : Type := mk_addrinfo {
  ai_flags : Z;
  ai_family : Z;
  ai_socktype : Z;
  ai_protocol : Z;
  ai_addrlen : Z;
  ai_addr : Z;
  ai_canonname : Z;
  ai_next : Z
}.

(** ** The error sink *)

(** Modelled from the spec: the [raise_*] functions of private/error.h and
    the message macros of the locale wrapper are missing.  The sink
    receives a message kind, a numeric code and a code-kind tag. *)
Inductive error_id : Type :=
  | SOCKET_FAILURE
  | ADDRESS_FAILURE
  | SOCKET_CONNECT_FAILURE
  | SOCKET_SEND_FAILURE.

Inductive l10n_message : Type :=
  | L10N_SOCKET_FAILED_ERROR_MESSAGE
  | L10N_GETADDRINFO_FAILURE_ERROR_MESSAGE
  | L10N_CONNECT_SYS_SOCKET_FAILED_ERROR_MESSAGE
  | L10N_SEND_SYS_SOCKET_FAILED_ERROR_MESSAGE.

Inductive l10n_code_type : Type :=
  | L10N_ERRNO_ERROR_CODE_TYPE
  | L10N_GETADDRINFO_RETURN_ERROR_CODE_TYPE.

(** ** Observable events, in the order the code performs them *)

Inductive event : Type :=
  | EvSocket (domain type protocol ret : Z)
  | EvGetaddrinfo (node service : string) (hints : addrinfo) (ret res : Z)
  | EvConnect (fd addr addrlen ret : Z)
  | EvFreeaddrinfo (res : Z)
  | EvClose (fd : Z)
  | EvSend (fd : Z) (buf : list Byte.byte) (len flags ret : Z)
  | EvRaise (id : error_id) (msg : l10n_message) (code : Z)
            (code_type : l10n_code_type)
  | EvLock (t : positive)
  | EvUnlock (t : positive)
  | EvInitMutex (t : positive)
  | EvDestroyMutex (t : positive).

(** ** The platform: the system calls the file uses *)

(** Each call answers with the value the system call returns, at the type
    it returns it: [int] for [socket], [getaddrinfo] and [connect],
    [ssize_t] for [send].  [os_addrinfo_at] reads the [struct addrinfo] a
    pointer designates.  A call that never returns (one that blocks for
    ever, or during which a signal such as SIGPIPE ends the process) is
    outside the model: what is proved of a run is proved of the runs whose
    system calls return. *)
Record platform : Type := mk_platform {
  os_state : Type;
  AF_INET : Z;
  AF_INET6 : Z;
  SOCK_STREAM : Z;
  SOCK_DGRAM : Z;
  os_errno : os_state → Z;
  os_socket : Z → Z → Z → os_state → Z * os_state;
  os_getaddrinfo :
    string → string → addrinfo → os_state → Z * Z * os_state;
  os_addrinfo_at : Z → os_state → addrinfo;
  os_connect : Z → Z → Z → os_state → Z * os_state;
  os_freeaddrinfo : Z → os_state → os_state;
  os_close : Z → os_state → os_state;
  os_send : Z → list Byte.byte → Z → Z → os_state → Z * os_state
}.

Record world (P : platform) : Type := mk_world {
  os : os_state P;
  mem : gmap positive network_target;
  trace : list event
}.
Arguments mk_world {P} _ _ _.
Arguments os {P} _.
Arguments mem {P} _.
Arguments trace {P} _.

(** ** The monad: state passing over [world]; [None] is undefined
    behaviour (a null or dangling target pointer is dereferenced). *)

Definition M (P : platform) (A : Type) : Type :=
  world P → option (A * world P).

Global Instance M_ret (P : platform) : MRet (M P) :=
  λ A (a : A) (w : world P), Some (a, w).

Global Instance M_bind (P : platform) : MBind (M P) :=
  λ A B (f : A → M P B) (m : M P A) (w : world P),
    match m w with
    | Some (a, w') => f a w'
    | None => None
    end.

Section Backend.
Context {P : platform}.

Definition log (e : event) : M P unit :=
  λ w, Some (tt, mk_world (os w) (mem w) (trace w ++ [e])).

(** A system call: the platform answers and moves to its next state, the
    call and its answer are recorded. *)
Definition syscall {A : Type} (f : os_state P → A * os_state P)
    (ev : A → event) : M P A :=
  λ w, let '(a, s) := f (os w) in
       Some (a, mk_world s (mem w) (trace w ++ [ev a])).

Definition errno : M P Z := λ w, Some (os_errno P (os w), w).

Definition socket (domain type protocol : Z) : M P Z :=
  syscall (os_socket P domain type protocol) (EvSocket domain type protocol).

Definition getaddrinfo (node service : string) (hints : addrinfo)
    : M P (Z * Z) :=
  syscall (os_getaddrinfo P node service hints)
          (λ r, EvGetaddrinfo node service hints r.1 r.2).

Definition addrinfo_at (p : Z) : M P addrinfo :=
  λ w, Some (os_addrinfo_at P p (os w), w).

Definition connect (fd addr addrlen : Z) : M P Z :=
  syscall (os_connect P fd addr addrlen) (EvConnect fd addr addrlen).

Definition freeaddrinfo (res : Z) : M P unit :=
  syscall (λ s, (tt, os_freeaddrinfo P res s)) (λ _, EvFreeaddrinfo res).

Definition close (fd : Z) : M P unit :=
  syscall (λ s, (tt, os_close P fd s)) (λ _, EvClose fd).

Definition send (fd : Z) (buf : list Byte.byte) (len flags : Z) : M P Z :=
  syscall (os_send P fd buf len flags) (EvSend fd buf len flags).

(** [target->field] *)
Definition deref (target : ptr) : M P network_target :=
  λ w, match target with
       | NULL => None
       | Ptr l => match mem w !! l with
                  | Some t => Some (t, w)
                  | None => None
                  end
       end.

(** [target->handle = h] *)
Definition assign_handle (target : ptr) (h : Z) : M P unit :=
  λ w, match target with
       | NULL => None
       | Ptr l => match mem w !! l with
                  | Some t =>
                      Some (tt, mk_world (os w)
                                  (<[l := set_handle h t]> (mem w))
                                  (trace w))
                  | None => None
                  end
       end.

(** Modelled from the spec: the mutex wrapper (thread_safety.h) and
    [lock_network_target] / [unlock_network_target] (network.h) are
    missing; the lock is opaque, with init/destroy/lock/unlock.  A mutex
    operation is recorded in the trace and leaves the platform state, so
    [errno], as it is. *)
Definition mutex_op (ev : positive → event) (target : ptr) : M P unit :=
  λ w, match target with
       | NULL => None
       | Ptr l => match mem w !! l with
                  | Some _ => log (ev l) w
                  | None => None
                  end
       end.

Definition lock_network_target : ptr → M P unit := mutex_op EvLock.
Definition unlock_network_target : ptr → M P unit := mutex_op EvUnlock.
Definition config_init_mutex : ptr → M P unit := mutex_op EvInitMutex.
Definition config_destroy_mutex : ptr → M P unit := mutex_op EvDestroyMutex.

Definition raise_socket_failure (msg : l10n_message) (code : Z)
    (code_type : l10n_code_type) : M P unit :=
  log (EvRaise SOCKET_FAILURE msg code code_type).

Definition raise_address_failure (msg : l10n_message) (code : Z)
    (code_type : l10n_code_type) : M P unit :=
  log (EvRaise ADDRESS_FAILURE msg code code_type).

Definition raise_socket_connect_failure (msg : l10n_message) (code : Z)
    (code_type : l10n_code_type) : M P unit :=
  log (EvRaise SOCKET_CONNECT_FAILURE msg code code_type).

Definition raise_socket_send_failure (msg : l10n_message) (code : Z)
    (code_type : l10n_code_type) : M P unit :=
  log (EvRaise SOCKET_SEND_FAILURE msg code code_type).

(** *** sys_socket_open_socket *)

(** The initialiser of [hints]: the five designated members, the others
    zero. *)
Definition hints_init : addrinfo :=
  {| ai_flags := 0; ai_family := 0; ai_socktype := 0; ai_protocol := 0;
     ai_addrlen := 0; ai_addr := 0; ai_canonname := 0; ai_next := 0 |}.

Definition set_ai_family (v : Z) (a : addrinfo) : addrinfo :=
  {| ai_flags := ai_flags a; ai_family := v; ai_socktype := ai_socktype a;
     ai_protocol := ai_protocol a; ai_addrlen := ai_addrlen a;
     ai_addr := ai_addr a; ai_canonname := ai_canonname a;
     ai_next := ai_next a |}.

Definition set_ai_socktype (v : Z) (a : addrinfo) : addrinfo :=
  {| ai_flags := ai_flags a; ai_family := ai_family a; ai_socktype := v;
     ai_protocol := ai_protocol a; ai_addrlen := ai_addrlen a;
     ai_addr := ai_addr a; ai_canonname := ai_canonname a;
     ai_next := ai_next a |}.

Definition set_ai_protocol (v : Z) (a : addrinfo) : addrinfo :=
  {| ai_flags := ai_flags a; ai_family := ai_family a;
     ai_socktype := ai_socktype a; ai_protocol := v;
     ai_addrlen := ai_addrlen a; ai_addr := ai_addr a;
     ai_canonname := ai_canonname a; ai_next := ai_next a |}.

(** The labels at the end of the function, each falling through to the
    next. *)
Definition fail : M P Z := mret (-1).

Definition fail_addr (handle : Z) : M P Z :=
  close handle ;; fail.

Definition fail_connect (addr_result handle : Z) : M P Z :=
  freeaddrinfo addr_result ;; fail_addr handle.

Definition sys_socket_open_socket (destination port : string)
    (domain type protocol : Z) : M P Z :=
  let hints := hints_init in
  handle ← socket domain type protocol;
  if handle =? -1 then
    e ← errno;
    raise_socket_failure L10N_SOCKET_FAILED_ERROR_MESSAGE e
                         L10N_ERRNO_ERROR_CODE_TYPE ;;
    fail
  else
    let hints := set_ai_family domain hints in
    let hints := set_ai_socktype type hints in
    let hints := set_ai_protocol protocol hints in
    '(result, addr_result) ← getaddrinfo destination port hints;
    if negb (result =? 0) then
      raise_address_failure L10N_GETADDRINFO_FAILURE_ERROR_MESSAGE result
                            L10N_GETADDRINFO_RETURN_ERROR_CODE_TYPE ;;
      fail_addr handle
    else
      first ← addrinfo_at addr_result;
      result ← connect handle (ai_addr first) (ai_addrlen first);
      if result =? -1 then
        e ← errno;
        raise_socket_connect_failure
          L10N_CONNECT_SYS_SOCKET_FAILED_ERROR_MESSAGE e
          L10N_ERRNO_ERROR_CODE_TYPE ;;
        fail_connect addr_result handle
      else
        freeaddrinfo addr_result ;;
        mret handle.

(** *** sys_socket_network_target_is_open *)

Definition sys_socket_network_target_is_open (target : ptr) : M P Z :=
  t ← deref target;
  mret (if handle t =? -1 then 0 else 1).

(** *** sys_socket_close_network_target *)

Definition sys_socket_close_network_target (target : ptr) : M P unit :=
  t ← deref target;
  (if negb (handle t =? -1) then close (handle t) else mret tt) ;;
  config_destroy_mutex target.

(** *** sys_socket_init_network_target *)

Definition sys_socket_init_network_target (target : ptr) : M P unit :=
  assign_handle target (-1) ;;
  config_init_mutex target.

(** *** The four open functions *)

Definition sys_socket_open_tcp4_target (target : ptr) : M P ptr :=
  lock_network_target target ;;
  t ← deref target;
  result ← sys_socket_open_socket (destination t) (port t)
                                  (AF_INET P) (SOCK_STREAM P) 0;
  assign_handle target result ;;
  unlock_network_target target ;;
  mret (if result =? -1 then NULL else target).

Definition sys_socket_open_tcp6_target (target : ptr) : M P ptr :=
  lock_network_target target ;;
  t ← deref target;
  result ← sys_socket_open_socket (destination t) (port t)
                                  (AF_INET6 P) (SOCK_STREAM P) 0;
  assign_handle target result ;;
  unlock_network_target target ;;
  mret (if result =? -1 then NULL else target).

Definition sys_socket_open_udp4_target (target : ptr) : M P ptr :=
  lock_network_target target ;;
  t ← deref target;
  result ← sys_socket_open_socket (destination t) (port t)
                                  (AF_INET P) (SOCK_DGRAM P) 0;
  assign_handle target result ;;
  unlock_network_target target ;;
  mret (if result =? -1 then NULL else target).

Definition sys_socket_open_udp6_target (target : ptr) : M P ptr :=
  lock_network_target target ;;
  t ← deref target;
  result ← sys_socket_open_socket (destination t) (port t)
                                  (AF_INET6 P) (SOCK_DGRAM P) 0;
  assign_handle target result ;;
  unlock_network_target target ;;
  mret (if result =? -1 then NULL else target).

(** *** The four reopen functions *)

Definition sys_socket_reopen_tcp4_target (target : ptr) : M P ptr :=
  lock_network_target target ;;
  is_open ← sys_socket_network_target_is_open target;
  (if negb (is_open =? 0) then
     t ← deref target;
     close (handle t) ;;
     result ← sys_socket_open_socket (destination t) (port t)
                                     (AF_INET P) (SOCK_STREAM P) 0;
     assign_handle target result
   else mret tt) ;;
  unlock_network_target target ;;
  mret target.

Definition sys_socket_reopen_tcp6_target (target : ptr) : M P ptr :=
  lock_network_target target ;;
  is_open ← sys_socket_network_target_is_open target;
  (if negb (is_open =? 0) then
     t ← deref target;
     close (handle t) ;;
     result ← sys_socket_open_socket (destination t) (port t)
                                     (AF_INET6 P) (SOCK_STREAM P) 0;
     assign_handle target result
   else mret tt) ;;
  unlock_network_target target ;;
  mret target.

Definition sys_socket_reopen_udp4_target (target : ptr) : M P ptr :=
  lock_network_target target ;;
  is_open ← sys_socket_network_target_is_open target;
  (if negb (is_open =? 0) then
     t ← deref target;
     close (handle t) ;;
     result ← sys_socket_open_socket (destination t) (port t)
                                     (AF_INET P) (SOCK_DGRAM P) 0;
     assign_handle target result
   else mret tt) ;;
  unlock_network_target target ;;
  mret target.

Definition sys_socket_reopen_udp6_target (target : ptr) : M P ptr :=
  lock_network_target target ;;
  is_open ← sys_socket_network_target_is_open target;
  (if negb (is_open =? 0) then
     t ← deref target;
     close (handle t) ;;
     result ← sys_socket_open_socket (destination t) (port t)
                                     (AF_INET6 P) (SOCK_DGRAM P) 0;
     assign_handle target result
   else mret tt) ;;
  unlock_network_target target ;;
  mret target.

(** *** sys_socket_sendto_target *)

Definition sys_socket_sendto_target (target : ptr) (msg : list Byte.byte)
    (msg_length : Z) : M P Z :=
  lock_network_target target ;;
  t ← deref target;
  sent ← send (handle t) msg msg_length 0;
  let result := to_int sent in
  unlock_network_target target ;;
  (if result =? -1 then
     e ← errno;
     raise_socket_send_failure L10N_SEND_SYS_SOCKET_FAILED_ERROR_MESSAGE e
                               L10N_ERRNO_ERROR_CODE_TYPE
   else mret tt) ;;
  mret result.

(** ** The four connection variants as data *)

Inductive variant : Type := TCP4 | TCP6 | UDP4 | UDP6.

Definition sys_socket_open (v : variant) : ptr → M P ptr :=
  match v with
  | TCP4 => sys_socket_open_tcp4_target
  | TCP6 => sys_socket_open_tcp6_target
  | UDP4 => sys_socket_open_udp4_target
  | UDP6 => sys_socket_open_udp6_target
  end.

Definition sys_socket_reopen (v : variant) : ptr → M P ptr :=
  match v with
  | TCP4 => sys_socket_reopen_tcp4_target
  | TCP6 => sys_socket_reopen_tcp6_target
  | UDP4 => sys_socket_reopen_udp4_target
  | UDP6 => sys_socket_reopen_udp6_target
  end.

(** The address family and socket type each variant passes to
    [sys_socket_open_socket]; the protocol is 0 in all of them. *)
Definition variant_domain (v : variant) : Z :=
  match v with
  | TCP4 | UDP4 => AF_INET P
  | TCP6 | UDP6 => AF_INET6 P
  end.

Definition variant_type (v : variant) : Z :=
  match v with
  | TCP4 | TCP6 => SOCK_STREAM P
  | UDP4 | UDP6 => SOCK_DGRAM P
  end.

End Backend.

Arguments variant_domain P v : clear implicits.
Arguments variant_type P v : clear implicits.

(** ** Resource accounting over a trace *)

(** What the code acquires from the operating system and must give back. *)
Inductive resource : Type :=
  | Descriptor (fd : Z)
  | AddressList (res : Z).

Global Instance resource_eq_dec : EqDecision resource.
Proof. solve_decision. Defined.

(** The resource an event acquires: a descriptor when [socket] succeeds,
    an address list when [getaddrinfo] succeeds. *)
Definition acquires (e : event) : option resource :=
  match e with
  | EvSocket _ _ _ ret => if ret =? -1 then None else Some (Descriptor ret)
  | EvGetaddrinfo _ _ _ ret res =>
      if ret =? 0 then Some (AddressList res) else None
  | _ => None
  end.

Definition releases (e : event) : option resource :=
  match e with
  | EvClose fd => Some (Descriptor fd)
  | EvFreeaddrinfo res => Some (AddressList res)
  | _ => None
  end.

Definition acquired (evs : list event) : list resource :=
  omap acquires evs.

Definition released (evs : list event) : list resource :=
  omap releases evs.

Fixpoint remove_first (r : resource) (l : list resource)
    : option (list resource) :=
  match l with
  | [] => None
  | x :: l' =>
      if decide (x = r) then Some l'
      else match remove_first r l' with
           | Some l'' => Some (x :: l'')
           | None => None
           end
  end.

(** [live]: acquired and not yet released.  [stray]: releases of something
    that was not live (released twice, or never acquired). *)
Record ledger : Type := mk_ledger {
  live : list resource;
  stray : list resource
}.

Definition account (L : ledger) (e : event) : ledger :=
  let L :=
    match acquires e with
    | Some r => mk_ledger (r :: live L) (stray L)
    | None => L
    end in
  match releases e with
  | Some r =>
      match remove_first r (live L) with
      | Some l' => mk_ledger l' (stray L)
      | None => mk_ledger (live L) (stray L ++ [r])
      end
  | None => L
  end.

Definition audit_from (L : ledger) (evs : list event) : ledger :=
  fold_left account evs L.

Definition audit (evs : list event) : ledger :=
  audit_from (mk_ledger [] []) evs.

(** Error reports in a stretch of the trace. *)
Definition is_raise (e : event) : bool :=
  match e with
  | EvRaise _ _ _ _ => true
  | _ => false
  end.

Definition reports (evs : list event) : list event :=
  filter (λ e, is_raise e = true) evs.

(** The (domain, type, protocol) of the [socket] calls in a stretch of the
    trace. *)
Definition socket_calls (evs : list event) : list (Z * Z * Z) :=
  omap (λ e, match e with
             | EvSocket d t p _ => Some (d, t, p)
             | _ => None
             end) evs.

(** The mutexes destroyed in a stretch of the trace. *)
Definition mutex_destroys (evs : list event) : list positive :=
  omap (λ e, match e with
             | EvDestroyMutex l => Some l
             | _ => None
             end) evs.

(** ** The exit paths of [sys_socket_open_socket] *)

Inductive exit_path : Type :=
  | ExitSocketFailed
  | ExitResolveFailed
  | ExitConnectFailed
  | ExitConnected.

Global Instance exit_path_eq_dec : EqDecision exit_path.
Proof. solve_decision. Defined.

Section ExitPaths.
Context {P : platform}.
Variables (dest service : string) (domain type protocol : Z).

(** [hints] as [getaddrinfo] receives it. *)
Definition resolver_hints : addrinfo :=
  set_ai_protocol protocol
    (set_ai_socktype type (set_ai_family domain hints_init)).

(** [open_socket_exit s k r evs s']: from platform state [s] the
    function leaves by path [k], returning [r], having performed [evs],
    with the platform in state [s']. *)
Inductive open_socket_exit (s : os_state P)
    : exit_path → Z → list event → os_state P → Prop :=
  | exit_socket_failed s1 :
      os_socket P domain type protocol s = (-1, s1) →
      open_socket_exit s ExitSocketFailed (-1)
        [ EvSocket domain type protocol (-1);
          EvRaise SOCKET_FAILURE L10N_SOCKET_FAILED_ERROR_MESSAGE
                  (os_errno P s1) L10N_ERRNO_ERROR_CODE_TYPE ]
        s1
  | exit_resolve_failed h s1 rc a s2 :
      os_socket P domain type protocol s = (h, s1) →
      h ≠ -1 →
      os_getaddrinfo P dest service resolver_hints s1 = (rc, a, s2) →
      rc ≠ 0 →
      open_socket_exit s ExitResolveFailed (-1)
        [ EvSocket domain type protocol h;
          EvGetaddrinfo dest service resolver_hints rc a;
          EvRaise ADDRESS_FAILURE L10N_GETADDRINFO_FAILURE_ERROR_MESSAGE
                  rc L10N_GETADDRINFO_RETURN_ERROR_CODE_TYPE;
          EvClose h ]
        (os_close P h s2)
  | exit_connect_failed h s1 a s2 s3 :
      os_socket P domain type protocol s = (h, s1) →
      h ≠ -1 →
      os_getaddrinfo P dest service resolver_hints s1 = (0, a, s2) →
      os_connect P h (ai_addr (os_addrinfo_at P a s2))
                 (ai_addrlen (os_addrinfo_at P a s2)) s2 = (-1, s3) →
      open_socket_exit s ExitConnectFailed (-1)
        [ EvSocket domain type protocol h;
          EvGetaddrinfo dest service resolver_hints 0 a;
          EvConnect h (ai_addr (os_addrinfo_at P a s2))
                    (ai_addrlen (os_addrinfo_at P a s2)) (-1);
          EvRaise SOCKET_CONNECT_FAILURE
                  L10N_CONNECT_SYS_SOCKET_FAILED_ERROR_MESSAGE
                  (os_errno P s3) L10N_ERRNO_ERROR_CODE_TYPE;
          EvFreeaddrinfo a;
          EvClose h ]
        (os_close P h (os_freeaddrinfo P a s3))
  | exit_connected h s1 a s2 c s3 :
      os_socket P domain type protocol s = (h, s1) →
      h ≠ -1 →
      os_getaddrinfo P dest service resolver_hints s1 = (0, a, s2) →
      os_connect P h (ai_addr (os_addrinfo_at P a s2))
                 (ai_addrlen (os_addrinfo_at P a s2)) s2 = (c, s3) →
      c ≠ -1 →
      open_socket_exit s ExitConnected h
        [ EvSocket domain type protocol h;
          EvGetaddrinfo dest service resolver_hints 0 a;
          EvConnect h (ai_addr (os_addrinfo_at P a s2))
                    (ai_addrlen (os_addrinfo_at P a s2)) c;
          EvFreeaddrinfo a ]
        (os_freeaddrinfo P a s3).

End ExitPaths.


(** ** Worlds inside a critical section *)

(** The world once the lock of the target at [l] is taken. *)
Definition locked {P : platform} (w : world P) (l : positive) : world P :=
  mk_world (os w) (mem w) (trace w ++ [EvLock l]).

(** The world once, under the lock, descriptor [fd] has been closed. *)
Definition reclosed {P : platform} (w : world P) (l : positive) (fd : Z)
    : world P :=
  mk_world (os_close P fd (os w)) (mem w)
           (trace w ++ [EvLock l; EvClose fd]).

(** ** Operations on a constructed target, as data *)

Inductive operation : Type :=
  | OpOpen (v : variant)
  | OpReopen (v : variant)
  | OpSend (msg : list Byte.byte) (msg_length : Z)
  | OpIsOpen.

(** Run an operation on a target and keep the world it leaves. *)
Definition perform {P : platform} (op : operation) (target : ptr)
    (w : world P) : option (world P) :=
  match op with
  | OpOpen v => snd <$> sys_socket_open v target w
  | OpReopen v => snd <$> sys_socket_reopen v target w
  | OpSend msg msg_length =>
      snd <$> sys_socket_sendto_target target msg msg_length w
  | OpIsOpen => snd <$> sys_socket_network_target_is_open target w
  end.

(** ** Error reports and the critical section *)

(** Scan a stretch of the trace, tracking whether the lock of the target
    at [l] is held: true when no error report occurs while it is. *)
Fixpoint raises_outside_lock (l : positive) (held : bool)
    (evs : list event) : bool :=
  match evs with
  | [] => true
  | EvLock l' :: rest =>
      raises_outside_lock l (if decide (l' = l) then true else held) rest
  | EvUnlock l' :: rest =>
      raises_outside_lock l (if decide (l' = l) then false else held) rest
  | EvRaise _ _ _ _ :: rest => negb held && raises_outside_lock l held rest
  | _ :: rest => raises_outside_lock l held rest
  end.

(** ** A scripted platform, for concrete runs *)

(** The platform answers each call with the next integer of a script and
    sets [errno] when the answer is -1. *)
Record script_state : Type := mk_script {
  answers : list Z;
  last_errno : Z
}.

Definition answer (e : Z) (s : script_state) : Z * script_state :=
  match answers s with
  | [] => (0, s)
  | r :: rest => (r, mk_script rest (if r =? -1 then e else last_errno s))
  end.

Definition EMFILE : Z := 24.
Definition EBADF : Z := 9.
Definition ECONNREFUSED : Z := 111.

Definition scripted : platform :=
  {| os_state := script_state;
     AF_INET := 2;
     AF_INET6 := 10;
     SOCK_STREAM := 1;
     SOCK_DGRAM := 2;
     os_errno := last_errno;
     os_socket := λ _ _ _, answer EMFILE;
     os_getaddrinfo := λ _ _ _ s,
       match answers s with
       | [] => (0, 4096, s)
       | r :: rest => (r, 4096, mk_script rest (last_errno s))
       end;
     os_addrinfo_at := λ _ _,
       {| ai_flags := 0; ai_family := 2; ai_socktype := 1; ai_protocol := 6;
          ai_addrlen := 16; ai_addr := 8192; ai_canonname := 0;
          ai_next := 0 |};
     os_connect := λ _ _ _, answer ECONNREFUSED;
     os_freeaddrinfo := λ _ s, s;
     os_close := λ _ s, s;
     os_send := λ _ _ _ _, answer EBADF |}.

Definition endpoint (tr : transport_protocol) (fam : network_protocol)
    (h : Z) : network_target :=
  {| destination := "localhost"; port := "514"; transport := tr;
     family := fam; handle := h |}.

Definition collector (h : Z) : network_target := endpoint TCP IPv4 h.

(** One target, [t], at address 1; the platform will give the answers
    [script]; nothing has happened yet. *)
Definition start_of (t : network_target) (script : list Z) : world scripted :=
  @mk_world scripted (mk_script script 0) {[ 1%positive := t ]} [].

Definition start (h : Z) (script : list Z) : world scripted :=
  start_of (collector h) script.

(** The events a run adds to the trace. *)
Definition emitted {P : platform} (w w' : world P) : list event :=
  drop (length (trace w)) (trace w').


(** What a run returned, the target it left at address 1, and its
    events. *)
Definition observe {A : Type} (run : option (A * world scripted))
    : option (A * option network_target * list event) :=
  (λ '(a, w'), (a, mem w' !! 1%positive, trace w')) <$> run.

(** The claim that a reopen repeats the pair of the open that established
    the handle, at given inputs: [v0] opened the target at [l] from [w],
    then [v] reopens it. *)
Definition reopen_repeats_pair_of_open {P : platform} (v0 v : variant)
    (l : positive) (w : world P) : Prop :=
  ∀ w1 q w2,
    sys_socket_open v0 (Ptr l) w = Some (Ptr l, w1) →
    sys_socket_reopen v (Ptr l) w1 = Some (q, w2) →
    socket_calls (emitted w1 w2)
      = [(variant_domain P v0, variant_type P v0, 0)].

(** ** The lock around the system calls *)

Definition is_syscall (e : event) : bool :=
  match e with
  | EvSocket _ _ _ _ | EvGetaddrinfo _ _ _ _ _ | EvConnect _ _ _ _
  | EvFreeaddrinfo _ | EvClose _ | EvSend _ _ _ _ _ => true
  | _ => false
  end.

(** Scan a stretch of the trace, tracking whether the lock of the target
    at [l] is held: true when every system call occurs while it is. *)
Fixpoint syscalls_inside_lock (l : positive) (held : bool)
    (evs : list event) : bool :=
  match evs with
  | [] => true
  | EvLock l' :: rest =>
      syscalls_inside_lock l (if decide (l' = l) then true else held) rest
  | EvUnlock l' :: rest =>
      syscalls_inside_lock l (if decide (l' = l) then false else held) rest
  | e :: rest =>
      (if is_syscall e then held else true) && syscalls_inside_lock l held rest
  end.

(** The state of the lock of the target at [l] after a stretch of the
    trace; [None] when the lock is taken while held or given back while
    free. *)
Fixpoint lock_after (l : positive) (held : bool) (evs : list event)
    : option bool :=
  match evs with
  | [] => Some held
  | EvLock l' :: rest =>
      if decide (l' = l)
      then (if held then None else lock_after l true rest)
      else lock_after l held rest
  | EvUnlock l' :: rest =>
      if decide (l' = l)
      then (if held then lock_after l false rest else None)
      else lock_after l held rest
  | _ :: rest => lock_after l held rest
  end.

(** The targets whose lock is taken, and those whose lock is given back,
    in a stretch of the trace. *)
Definition locks (evs : list event) : list positive :=
  omap (λ e, match e with
             | EvLock l => Some l
             | _ => None
             end) evs.

Definition unlocks (evs : list event) : list positive :=
  omap (λ e, match e with
             | EvUnlock l => Some l
             | _ => None
             end) evs.

(** The locks an operation on the target at [l] takes: one, except for
    the is_open query, which takes none. *)
Definition locks_of (op : operation) (l : positive) : list positive :=
  match op with
  | OpIsOpen => []
  | _ => [l]
  end.

(** The (node, service, hints) of the [getaddrinfo] calls, the
    descriptors of the [connect] calls that succeeded, and the
    descriptors of the [send] calls, in a stretch of the trace. *)
Definition resolver_calls (evs : list event)
    : list (string * string * addrinfo) :=
  omap (λ e, match e with
             | EvGetaddrinfo node service hints _ _ =>
                 Some (node, service, hints)
             | _ => None
             end) evs.

Definition connected (evs : list event) : list Z :=
  omap (λ e, match e with
             | EvConnect fd _ _ ret => if ret =? -1 then None else Some fd
             | _ => None
             end) evs.

Definition connect_calls (evs : list event) : list (Z * Z * Z) :=
  omap (λ e, match e with
             | EvConnect fd addr addrlen _ => Some (fd, addr, addrlen)
             | _ => None
             end) evs.

Definition send_calls (evs : list event) : list Z :=
  omap (λ e, match e with
             | EvSend fd _ _ _ _ => Some fd
             | _ => None
             end) evs.

(** A caller that reopens a target again and again, once with each
    variant of a list. *)
Fixpoint reopen_each {P : platform} (vs : list variant) (target : ptr)
    : M P unit :=
  match vs with
  | [] => mret tt
  | v :: vs' => sys_socket_reopen v target ;; reopen_each vs' target
  end.

(** The target at [l] with another handle, everything else as in [w]. *)
Definition with_handle {P : platform} (w : world P) (l : positive)
    (t : network_target) (h : Z) : world P :=
  mk_world (os w) (<[l := set_handle h t]> (mem w)) (trace w).

(** The claim that a send of [msg_length] bytes on the target at [l],
    from [w], returns what the transmission call reports and reports a
    failure exactly when that is -1. *)
Definition sendto_returns_reported_count {P : platform} (l : positive)
    (msg_length : Z) (w : world P) : Prop :=
  ∀ t msg r s',
    mem w !! l = Some t →
    os_send P (handle t) msg msg_length 0 (os w) = (r, s') →
    ∃ w',
      sys_socket_sendto_target (Ptr l) msg msg_length w = Some (r, w') ∧
      (r = -1 ↔ length (reports (emitted w w')) = 1%nat).

(** ** Sequences of operations *)

(** A caller that performs a list of operations on one target, in order. *)
Fixpoint perform_all {P : platform} (ops : list operation) (target : ptr)
    (w : world P) : option (world P) :=
  match ops with
  | [] => Some w
  | op :: ops' =>
      match perform op target w with
      | Some w' => perform_all ops' target w'
      | None => None
      end
  end.

Definition is_open_op (op : operation) : bool :=
  match op with
  | OpOpen _ => true
  | _ => false
  end.

(** The handle of the target at [l] is the sentinel or a descriptor that
    is live in the accounting of the trace. *)
Definition handle_valid {P : platform} (w : world P) (l : positive) : Prop :=
  ∃ t, mem w !! l = Some t ∧
       (handle t = -1 ∨ Descriptor (handle t) ∈ live (audit (trace w))).

(** The accounting of the trace is [base] plus, when the target at [l] is
    open, the descriptor in its handle. *)
Definition owns_handle {P : platform} (base : ledger) (w : world P)
    (l : positive) : Prop :=
  ∃ t, mem w !! l = Some t ∧
       audit (trace w)
       = mk_ledger (if handle t =? -1
                    then live base
                    else Descriptor (handle t) :: live base)
                   (stray base).

(** The world a successful TCP/IPv4 open leaves, from [start], when
    [socket] answered [h]; the platform will give the answers [script]
    next. *)
Definition opened (h : Z) (script : list Z) : world scripted :=
  @mk_world scripted (mk_script script 0) {[ 1%positive := collector h ]}
    [ EvLock 1;
      EvSocket 2 1 0 h;
      EvGetaddrinfo "localhost" "514" (resolver_hints 2 1 0) 0 4096;
      EvConnect h 8192 16 0;
      EvFreeaddrinfo 4096;
      EvUnlock 1 ].

(** ** The primitive always leaves by one of the four paths *)

Section Exits.
Context {P : platform}.
Variables (dest service : string) (domain type protocol : Z).

(** The function always returns, by one of the four paths, and touches
    nothing but the platform and the trace. *)
Lemma sys_socket_open_socket_exits (w : world P) :
  ∃ k r evs s',
    open_socket_exit dest service domain type protocol (os w) k r evs s' ∧
    sys_socket_open_socket dest service domain type protocol w
      = Some (r, mk_world s' (mem w) (trace w ++ evs)).
Proof.
  unfold sys_socket_open_socket, socket, getaddrinfo, connect, addrinfo_at,
    errno, raise_socket_failure, raise_address_failure,
    raise_socket_connect_failure, fail_connect, fail_addr, fail,
    freeaddrinfo, close, log, syscall, mbind, mret, M_bind, M_ret.
  destruct w as [s m tr]; simpl.
  destruct (os_socket P domain type protocol s) as [h s1] eqn:Hsock.
  simpl.
  destruct (Z.eqb_spec h (-1)) as [-> | Hh]; simpl.
  { exists ExitSocketFailed, (-1); eexists; eexists; split.
    - by apply exit_socket_failed.
    - by rewrite <- !app_assoc. }
  fold (resolver_hints domain type protocol).
  destruct (os_getaddrinfo P dest service
            (resolver_hints domain type protocol) s1)
    as [[rc a] s2] eqn:Hres.
  simpl.
  destruct (Z.eqb_spec rc 0) as [-> | Hrc]; simpl.
  2:{ exists ExitResolveFailed, (-1); eexists; eexists; split.
      - by eapply exit_resolve_failed.
      - by rewrite <- !app_assoc. }
  destruct (os_connect P h (ai_addr (os_addrinfo_at P a s2))
              (ai_addrlen (os_addrinfo_at P a s2)) s2) as [c s3] eqn:Hcon.
  simpl.
  destruct (Z.eqb_spec c (-1)) as [-> | Hc]; simpl.
  { exists ExitConnectFailed, (-1); eexists; eexists; split.
    - by eapply exit_connect_failed.
    - by rewrite <- !app_assoc. }
  exists ExitConnected, h; eexists; eexists; split.
  - by eapply exit_connected.
  - by rewrite <- !app_assoc.
Qed.

End Exits.

(** ** Conversion to [int] *)

Lemma to_int_id (z : Z) : INT_MIN ≤ z ≤ INT_MAX → to_int z = z.
Proof.
  unfold to_int, INT_MIN, INT_MAX. intros Hz.
  rewrite Z.mod_small by lia. lia.
Qed.

Lemma to_int_range (z : Z) : INT_MIN ≤ to_int z ≤ INT_MAX.
Proof.
  unfold to_int, INT_MIN, INT_MAX.
  pose proof (Z.mod_pos_bound (z - -2147483648) 4294967296). lia.
Qed.

(** ** How each operation runs on a valid target *)

Arguments sys_socket_open_socket : simpl never.

Section Runs.
Context {P : platform}.
Implicit Types (w : world P) (l : positive) (t : network_target)
  (v : variant).

Lemma sys_socket_open_socket_mem dest service domain type protocol w r w' :
  sys_socket_open_socket dest service domain type protocol w = Some (r, w') →
  mem w' = mem w.
Proof.
  destruct (sys_socket_open_socket_exits dest service domain type protocol w)
    as (k & r0 & evs & s' & _ & Hrun).
  rewrite Hrun. by intros [= <- <-].
Qed.

Lemma sys_socket_open_socket_total dest service domain type protocol w :
  ∃ r w', sys_socket_open_socket dest service domain type protocol w
          = Some (r, w').
Proof.
  destruct (sys_socket_open_socket_exits dest service domain type protocol w)
    as (k & r & evs & s' & _ & Hrun).
  eauto.
Qed.

Lemma set_handle_same t : set_handle (handle t) t = t.
Proof. by destruct t. Qed.

Ltac run_monad :=
  unfold lock_network_target, unlock_network_target, config_destroy_mutex,
    config_init_mutex, mutex_op, deref, assign_handle, errno, send, close,
    raise_socket_send_failure, log, syscall, mbind, mret, M_bind, M_ret;
  simpl.

(** Every open function: lock, one run of the primitive with the
    variant's constants, the store into [handle], unlock. *)
Lemma sys_socket_open_steps v l t w r w1 :
  mem w !! l = Some t →
  sys_socket_open_socket (destination t) (port t) (variant_domain P v)
                         (variant_type P v) 0 (locked w l) = Some (r, w1) →
  sys_socket_open v (Ptr l) w
    = Some (if r =? -1 then NULL else Ptr l,
            mk_world (os w1) (<[l := set_handle r t]> (mem w))
                     (trace w1 ++ [EvUnlock l])).
Proof.
  intros Hl Hrun.
  pose proof (sys_socket_open_socket_mem _ _ _ _ _ _ _ _ Hrun) as Hmem.
  unfold locked in Hrun. simpl in Hmem.
  destruct v; simpl in Hrun |- *;
    unfold sys_socket_open_tcp4_target, sys_socket_open_tcp6_target,
      sys_socket_open_udp4_target, sys_socket_open_udp6_target;
    run_monad; rewrite Hl; simpl; rewrite Hl; simpl; rewrite Hrun; simpl;
    rewrite Hmem, Hl; simpl; rewrite lookup_insert_eq; simpl;
    by rewrite ?Hmem.
Qed.

(** Every reopen function on a target whose handle is the sentinel. *)
Lemma sys_socket_reopen_closed_steps v l t w :
  mem w !! l = Some t →
  handle t = -1 →
  sys_socket_reopen v (Ptr l) w
    = Some (Ptr l,
            mk_world (os w) (mem w) (trace w ++ [EvLock l; EvUnlock l])).
Proof.
  intros Hl Hh.
  destruct v; simpl;
    unfold sys_socket_reopen_tcp4_target, sys_socket_reopen_tcp6_target,
      sys_socket_reopen_udp4_target, sys_socket_reopen_udp6_target,
      sys_socket_network_target_is_open;
    run_monad; repeat (progress (rewrite ?Hl, ?Hh; simpl));
    by rewrite <- app_assoc.
Qed.

(** Every reopen function on an open target: lock, close the stored
    descriptor, one run of the primitive with the variant's constants,
    the store into [handle], unlock. *)
Lemma sys_socket_reopen_open_steps v l t w r w1 :
  mem w !! l = Some t →
  handle t ≠ -1 →
  sys_socket_open_socket (destination t) (port t) (variant_domain P v)
                         (variant_type P v) 0 (reclosed w l (handle t))
    = Some (r, w1) →
  sys_socket_reopen v (Ptr l) w
    = Some (Ptr l,
            mk_world (os w1) (<[l := set_handle r t]> (mem w))
                     (trace w1 ++ [EvUnlock l])).
Proof.
  intros Hl Hh Hrun.
  pose proof (sys_socket_open_socket_mem _ _ _ _ _ _ _ _ Hrun) as Hmem.
  unfold reclosed in Hrun. simpl in Hmem.
  apply Z.eqb_neq in Hh.
  destruct v; simpl in Hrun |- *;
    unfold sys_socket_reopen_tcp4_target, sys_socket_reopen_tcp6_target,
      sys_socket_reopen_udp4_target, sys_socket_reopen_udp6_target,
      sys_socket_network_target_is_open;
    run_monad; repeat (progress (rewrite ?Hl, ?Hh; simpl));
    rewrite <- app_assoc; simpl; rewrite Hrun; simpl;
    rewrite Hmem, Hl; simpl; rewrite lookup_insert_eq; simpl;
    by rewrite ?Hmem.
Qed.

Lemma sys_socket_sendto_steps l t msg msg_length w r s' :
  mem w !! l = Some t →
  os_send P (handle t) msg msg_length 0 (os w) = (r, s') →
  sys_socket_sendto_target (Ptr l) msg msg_length w
    = Some (to_int r,
            mk_world s' (mem w)
              (trace w
               ++ [EvLock l; EvSend (handle t) msg msg_length 0 r;
                   EvUnlock l]
               ++ (if to_int r =? -1
                   then [EvRaise SOCKET_SEND_FAILURE
                           L10N_SEND_SYS_SOCKET_FAILED_ERROR_MESSAGE
                           (os_errno P s') L10N_ERRNO_ERROR_CODE_TYPE]
                   else []))).
Proof.
  intros Hl Hsend.
  unfold sys_socket_sendto_target; run_monad.
  repeat (progress (rewrite ?Hl, ?Hsend; simpl)).
  destruct (to_int r =? -1); simpl; by rewrite <- !app_assoc.
Qed.

Lemma sys_socket_is_open_steps l t w :
  mem w !! l = Some t →
  sys_socket_network_target_is_open (Ptr l) w
    = Some (if handle t =? -1 then 0 else 1, w).
Proof.
  intros Hl. unfold sys_socket_network_target_is_open; run_monad.
  by rewrite Hl.
Qed.

Lemma sys_socket_close_steps l t w :
  mem w !! l = Some t →
  sys_socket_close_network_target (Ptr l) w
    = Some (tt,
            mk_world
              (if handle t =? -1 then os w else os_close P (handle t) (os w))
              (mem w)
              (trace w
               ++ (if handle t =? -1 then [] else [EvClose (handle t)])
               ++ [EvDestroyMutex l])).
Proof.
  intros Hl. unfold sys_socket_close_network_target; run_monad.
  rewrite Hl; simpl.
  destruct (handle t =? -1); simpl; rewrite ?Hl; simpl;
    by rewrite <- ?app_assoc.
Qed.

End Runs.

(** ** Facts about the exit paths *)

Section ExitFacts.
Context {P : platform}.
Variables (dest service : string) (domain type protocol : Z).
Variables (s s' : os_state P) (k : exit_path) (r : Z) (evs : list event).
Hypothesis Hexit :
  open_socket_exit (P := P) dest service domain type protocol s k r evs s'.

Lemma exit_socket_calls : socket_calls evs = [(domain, type, protocol)].
Proof using Hexit. by destruct Hexit. Qed.

(** The function returns the sentinel exactly on the three failure
    paths, and exactly then has it reported an error, once. *)
Lemma exit_sentinel_iff_failed : r = -1 ↔ k ≠ ExitConnected.
Proof using Hexit. destruct Hexit; split; try done. Qed.

Lemma exit_reports :
  length (reports evs) = (if decide (k = ExitConnected) then 0 else 1)%nat.
Proof using Hexit. by destruct Hexit. Qed.

Lemma exit_resources :
  match k with
  | ExitSocketFailed => acquired evs = [] ∧ released evs = []
  | ExitResolveFailed =>
      ∃ h, acquired evs = [Descriptor h] ∧ released evs = [Descriptor h]
  | ExitConnectFailed =>
      ∃ h a, acquired evs = [Descriptor h; AddressList a] ∧
             released evs = [AddressList a; Descriptor h]
  | ExitConnected =>
      ∃ a, acquired evs = [Descriptor r; AddressList a] ∧
           released evs = [AddressList a]
  end.
Proof using Hexit.
  destruct Hexit as [s1 Hs | h s1 rc a s2 Hs Hh Hg Hrc
                    | h s1 a s2 s3 Hs Hh Hg Hc
                    | h s1 a s2 c s3 Hs Hh Hg Hc Hcn];
    unfold acquired, released; simpl.
  - done.
  - apply Z.eqb_neq in Hh, Hrc. rewrite Hh, Hrc. by exists h.
  - apply Z.eqb_neq in Hh. rewrite Hh. by exists h, a.
  - apply Z.eqb_neq in Hh. rewrite Hh. by exists a.
Qed.

(** Whatever was live before stays live, nothing is released that was
    not live, and the only new live resource is the descriptor a
    successful run returns. *)
Lemma exit_audit (L : ledger) :
  audit_from L evs
    = mk_ledger (match k with
                 | ExitConnected => Descriptor r :: live L
                 | _ => live L
                 end) (stray L).
Proof using Hexit.
  destruct L as [lv st].
  destruct Hexit as [s1 Hs | h s1 rc a s2 Hs Hh Hg Hrc
                    | h s1 a s2 s3 Hs Hh Hg Hc
                    | h s1 a s2 c s3 Hs Hh Hg Hc Hcn];
    unfold audit_from, account; simpl.
  - done.
  - apply Z.eqb_neq in Hh, Hrc. rewrite Hh, Hrc. simpl.
    by rewrite decide_True.
  - apply Z.eqb_neq in Hh. rewrite Hh. simpl.
    rewrite decide_True by done. simpl. by rewrite decide_True.
  - apply Z.eqb_neq in Hh. rewrite Hh. simpl.
    by rewrite decide_True.
Qed.

End ExitFacts.

Lemma audit_from_app (L : ledger) (evs1 evs2 : list event) :
  audit_from L (evs1 ++ evs2) = audit_from (audit_from L evs1) evs2.
Proof. apply fold_left_app. Qed.

Lemma emitted_app {P : platform} (w w' : world P) (evs : list event) :
  trace w' = trace w ++ evs → emitted w w' = evs.
Proof. unfold emitted. intros ->. apply drop_app_length. Qed.

(** ** Concrete runs on the scripted platform *)

(** No listener: the open fails at [connect], the failure indicator is
    returned, the handle is the sentinel, one connect failure with
    ECONNREFUSED is reported, and what was acquired is given back. *)
Example open_tcp4_connection_refused :
  observe (sys_socket_open TCP4 (Ptr 1) (start (-1) [3; 0; -1]))
  = Some (NULL, Some (collector (-1)),
          [ EvLock 1;
            EvSocket 2 1 0 3;
            EvGetaddrinfo "localhost" "514" (resolver_hints 2 1 0) 0 4096;
            EvConnect 3 8192 16 (-1);
            EvRaise SOCKET_CONNECT_FAILURE
                    L10N_CONNECT_SYS_SOCKET_FAILED_ERROR_MESSAGE
                    ECONNREFUSED L10N_ERRNO_ERROR_CODE_TYPE;
            EvFreeaddrinfo 4096;
            EvClose 3;
            EvUnlock 1 ]).
Proof. vm_compute. reflexivity. Qed.

(** A send of no bytes on an open target returns 0 and reports
    nothing. *)
Example sendto_zero_length :
  observe (sys_socket_sendto_target (Ptr 1) [] 0 (start 3 [0]))
  = Some (0, Some (collector 3),
          [ EvLock 1; EvSend 3 [] 0 0 0; EvUnlock 1 ]).
Proof. vm_compute. reflexivity. Qed.

(** Initialisation sets the sentinel, whatever the handle held. *)
Example init_sets_sentinel :
  observe (sys_socket_init_network_target (Ptr 1) (start 42 []))
  = Some (tt, Some (collector (-1)), [ EvInitMutex 1 ]).
Proof. vm_compute. reflexivity. Qed.

(** A null target pointer is undefined behaviour in every operation. *)
Example null_target_is_undefined :
  sys_socket_sendto_target NULL [] 0 (start 3 [0]) = None.
Proof. reflexivity. Qed.

(** ** The address-resolve-and-connect primitive *)

(** C1: every exit path of [sys_socket_open_socket] releases exactly what
    was acquired up to that point.  On socket-creation failure nothing was
    acquired and nothing is released; on address-resolution failure only
    the socket is closed; on connect failure the address list is freed and
    then the socket is closed; on success the address list is freed and
    the connected descriptor is returned.  Hence the accounting of the
    trace shows no resource left live except the returned descriptor, and
    no release of something that was not live. *)
Theorem open_socket_releases_what_it_acquired {P : platform}
    (dest service : string) (domain type protocol : Z) (w : world P) :
  ∃ k r evs w',
    sys_socket_open_socket dest service domain type protocol w
      = Some (r, w') ∧
    mem w' = mem w ∧
    trace w' = trace w ++ evs ∧
    open_socket_exit dest service domain type protocol (os w) k r evs
                     (os w') ∧
    match k with
    | ExitSocketFailed =>
        r = -1 ∧ acquired evs = [] ∧ released evs = []
    | ExitResolveFailed =>
        r = -1 ∧
        ∃ h, acquired evs = [Descriptor h] ∧ released evs = [Descriptor h]
    | ExitConnectFailed =>
        r = -1 ∧
        ∃ h a, acquired evs = [Descriptor h; AddressList a] ∧
               released evs = [AddressList a; Descriptor h]
    | ExitConnected =>
        r ≠ -1 ∧
        ∃ a, acquired evs = [Descriptor r; AddressList a] ∧
             released evs = [AddressList a]
    end ∧
    ∀ L, audit_from L evs
         = mk_ledger (match k with
                      | ExitConnected => Descriptor r :: live L
                      | _ => live L
                      end) (stray L).
Proof.
  destruct (sys_socket_open_socket_exits dest service domain type protocol w)
    as (k & r & evs & s' & Hexit & Hrun).
  exists k, r, evs, (mk_world s' (mem w) (trace w ++ evs)).
  split; [done|]. split; [done|]. split; [done|]. split; [done|].
  split; [|intros L; by eapply exit_audit].
  pose proof (exit_resources _ _ _ _ _ _ _ _ _ _ Hexit) as Hres.
  pose proof (exit_sentinel_iff_failed _ _ _ _ _ _ _ _ _ _ Hexit) as Hsen.
  destruct k; try (split; [by apply Hsen | done]).
  split; [|done]. intros Hr. by apply Hsen in Hr.
Qed.

(** ** Open *)

(** C3: every open variant stores the descriptor the primitive produced
    (the sentinel on its failure) into [handle], and returns the target
    itself exactly when the stored descriptor is not the sentinel, the
    null pointer exactly when it is. *)
Theorem open_stores_result_and_reports_it {P : platform} (v : variant)
    (l : positive) (t : network_target) (w : world P) :
  mem w !! l = Some t →
  ∃ r w1 ret w' t',
    sys_socket_open_socket (destination t) (port t) (variant_domain P v)
                           (variant_type P v) 0 (locked w l)
      = Some (r, w1) ∧
    sys_socket_open v (Ptr l) w = Some (ret, w') ∧
    mem w' !! l = Some t' ∧
    handle t' = r ∧
    (ret = Ptr l ↔ handle t' ≠ -1) ∧
    (ret = NULL ↔ handle t' = -1).
Proof.
  intros Hl.
  destruct (sys_socket_open_socket_total (destination t) (port t)
              (variant_domain P v) (variant_type P v) 0 (locked w l))
    as (r & w1 & Hrun).
  exists r, w1. eexists; eexists; exists (set_handle r t).
  split; [done|].
  split; [by apply sys_socket_open_steps|].
  simpl. split; [by rewrite lookup_insert_eq|].
  split; [done|].
  destruct (Z.eqb_spec r (-1)); split; split; done.
Qed.

Lemma open_stores_result_and_reports_it_witness :
  mem (start (-1) [5; 0; 0]) !! 1%positive = Some (collector (-1)) ∧
  ∃ r w1 ret w' t',
    sys_socket_open_socket "localhost" "514" 2 1 0
                           (locked (start (-1) [5; 0; 0]) 1)
      = Some (r, w1) ∧
    sys_socket_open TCP4 (Ptr 1) (start (-1) [5; 0; 0]) = Some (ret, w') ∧
    mem w' !! 1%positive = Some t' ∧
    handle t' = r ∧
    (ret = Ptr 1 ↔ handle t' ≠ -1) ∧
    (ret = NULL ↔ handle t' = -1).
Proof.
  split; [reflexivity|].
  apply (open_stores_result_and_reports_it TCP4 1 (collector (-1))
           (start (-1) [5; 0; 0])).
  reflexivity.
Defined.

(** C9: every open variant stores the primitive's return value into
    [handle] unconditionally, and the primitive returns the sentinel
    exactly when it failed (exactly then it has reported an error).  So
    after a failed open [is_open] reports false whatever the handle was
    before, and the call has released only what it acquired itself: the
    accounting of the trace is as before the call, the descriptor stored
    before is overwritten without being closed. *)
Theorem failed_open_overwrites_handle {P : platform} (v : variant)
    (l : positive) (t : network_target) (w : world P) :
  mem w !! l = Some t →
  ∃ k r evs s' ret w',
    open_socket_exit (destination t) (port t) (variant_domain P v)
                     (variant_type P v) 0 (os w) k r evs s' ∧
    sys_socket_open_socket (destination t) (port t) (variant_domain P v)
                           (variant_type P v) 0 (locked w l)
      = Some (r, mk_world s' (mem w) (trace w ++ [EvLock l] ++ evs)) ∧
    sys_socket_open v (Ptr l) w = Some (ret, w') ∧
    trace w' = trace w ++ [EvLock l] ++ evs ++ [EvUnlock l] ∧
    mem w' !! l = Some (set_handle r t) ∧
    (r = -1 ↔ reports evs ≠ []) ∧
    (r = -1 →
       ret = NULL ∧
       sys_socket_network_target_is_open (Ptr l) w' = Some (0, w') ∧
       released evs = reverse (acquired evs) ∧
       audit (trace w') = audit (trace w)).
Proof.
  intros Hl.
  destruct (sys_socket_open_socket_exits (destination t) (port t)
              (variant_domain P v) (variant_type P v) 0 (locked w l))
    as (k & r & evs & s' & Hexit & Hrun).
  simpl in Hexit, Hrun. rewrite <- app_assoc in Hrun.
  exists k, r, evs, s'. eexists; eexists.
  split; [done|]. split; [done|].
  split; [by eapply sys_socket_open_steps|].
  simpl. split; [by rewrite <- !app_assoc|].
  split; [by rewrite lookup_insert_eq|].
  pose proof (exit_sentinel_iff_failed _ _ _ _ _ _ _ _ _ _ Hexit) as Hsen.
  pose proof (exit_reports _ _ _ _ _ _ _ _ _ _ Hexit) as Hrep.
  split.
  { rewrite Hsen. case_decide as Hk; split; intros H; try done.
    - destruct (reports evs); [done | discriminate Hrep].
    - intros E. rewrite E in Hrep. discriminate Hrep. }
  intros ->. split; [done|]. split.
  { rewrite (sys_socket_is_open_steps l (set_handle (-1) t)); [done|].
    simpl. by rewrite lookup_insert_eq. }
  pose proof (exit_resources _ _ _ _ _ _ _ _ _ _ Hexit) as Hres.
  assert (k ≠ ExitConnected) as Hk by by apply Hsen.
  split.
  { destruct k; try done.
    - by destruct Hres as [-> ->].
    - by destruct Hres as (h & -> & ->).
    - by destruct Hres as (h & a & -> & ->). }
  unfold audit. rewrite !audit_from_app.
  change (EvLock l :: evs) with ([EvLock l] ++ evs).
  rewrite audit_from_app.
  rewrite (exit_audit _ _ _ _ _ _ _ _ _ _ Hexit).
  destruct (audit_from _ (trace w)) as [lv st].
  by destruct k.
Qed.

Lemma failed_open_overwrites_handle_witness :
  mem (start 7 [5; 0; -1]) !! 1%positive = Some (collector 7) ∧
  ∃ k r evs s' ret w',
    open_socket_exit (P := scripted) "localhost" "514" 2 1 0
                     (os (start 7 [5; 0; -1])) k r evs s' ∧
    sys_socket_open_socket "localhost" "514" 2 1 0
                           (locked (start 7 [5; 0; -1]) 1)
      = Some (r, mk_world s' (mem (start 7 [5; 0; -1]))
                     (trace (start 7 [5; 0; -1]) ++ [EvLock 1] ++ evs)) ∧
    sys_socket_open TCP4 (Ptr 1) (start 7 [5; 0; -1]) = Some (ret, w') ∧
    trace w' = trace (start 7 [5; 0; -1])
               ++ [EvLock 1] ++ evs ++ [EvUnlock 1] ∧
    mem w' !! 1%positive = Some (set_handle r (collector 7)) ∧
    (r = -1 ↔ reports evs ≠ []) ∧
    (r = -1 →
       ret = NULL ∧
       sys_socket_network_target_is_open (Ptr 1) w' = Some (0, w') ∧
       released evs = reverse (acquired evs) ∧
       audit (trace w') = audit (trace (start 7 [5; 0; -1]))).
Proof.
  split; [reflexivity|].
  apply (failed_open_overwrites_handle TCP4 1 (collector 7)
           (start 7 [5; 0; -1])).
  reflexivity.
Defined.

(** ** Reopen *)

(** C2: on a target that is open every reopen variant closes the stored
    descriptor, then runs the primitive once with the address family and
    socket type of its variant (protocol 0), then stores the new
    descriptor or the sentinel into [handle].  The pair is the one the
    open of that variant used when it established the handle: the
    [socket] call of the reopen is the [socket] call of the open. *)
Theorem reopen_repeats_pair_of_its_variant {P : platform} (v : variant)
    (l : positive) (t : network_target) (w : world P) :
  mem w !! l = Some t →
  handle t ≠ -1 →
  (∃ k r evs s',
     open_socket_exit (destination t) (port t) (variant_domain P v)
                      (variant_type P v) 0
                      (os_close P (handle t) (os w)) k r evs s' ∧
     sys_socket_reopen v (Ptr l) w
       = Some (Ptr l,
               mk_world s' (<[l := set_handle r t]> (mem w))
                 (trace w ++ [EvLock l; EvClose (handle t)] ++ evs
                  ++ [EvUnlock l])) ∧
     socket_calls evs = [(variant_domain P v, variant_type P v, 0)]) ∧
  (∀ w0 : world P, reopen_repeats_pair_of_open v v l w0) ∧
  (∀ (w0 w1 w2 : world P) (q : ptr),
     sys_socket_open v (Ptr l) w0 = Some (Ptr l, w1) →
     sys_socket_reopen v (Ptr l) w1 = Some (q, w2) →
     socket_calls (emitted w1 w2) = socket_calls (emitted w0 w1)).
Proof.
  assert (Hopen : ∀ (t0 : network_target) (w0 : world P),
            mem w0 !! l = Some t0 → handle t0 ≠ -1 →
            ∃ k r evs s',
              open_socket_exit (destination t0) (port t0)
                (variant_domain P v) (variant_type P v) 0
                (os_close P (handle t0) (os w0)) k r evs s' ∧
              sys_socket_reopen v (Ptr l) w0
                = Some (Ptr l,
                        mk_world s' (<[l := set_handle r t0]> (mem w0))
                          (trace w0 ++ [EvLock l; EvClose (handle t0)] ++ evs
                           ++ [EvUnlock l])) ∧
              socket_calls evs
                = [(variant_domain P v, variant_type P v, 0)]).
  { intros t0 w0 Hl Hh.
    destruct (sys_socket_open_socket_exits (destination t0) (port t0)
                (variant_domain P v) (variant_type P v) 0
                (reclosed w0 l (handle t0)))
      as (k & r & evs & s' & Hexit & Hrun).
    simpl in Hexit, Hrun.
    exists k, r, evs, s'. split; [done|]. split.
    - rewrite (sys_socket_reopen_open_steps v l t0 w0 r _ Hl Hh Hrun).
      simpl. by rewrite <- !app_assoc.
    - by eapply exit_socket_calls. }
  assert (Hpair : ∀ (w0 w1 w2 : world P) (q : ptr),
            sys_socket_open v (Ptr l) w0 = Some (Ptr l, w1) →
            sys_socket_reopen v (Ptr l) w1 = Some (q, w2) →
            socket_calls (emitted w1 w2)
              = [(variant_domain P v, variant_type P v, 0)] ∧
            socket_calls (emitted w0 w1)
              = [(variant_domain P v, variant_type P v, 0)]).
  { intros w0 w1 w2 q Hop Hre.
    destruct (mem w0 !! l) as [t0|] eqn:Hl0.
    2:{ destruct v; simpl in Hop;
          unfold sys_socket_open_tcp4_target, sys_socket_open_tcp6_target,
            sys_socket_open_udp4_target, sys_socket_open_udp6_target,
            lock_network_target, mutex_op, mbind, M_bind in Hop;
          by rewrite Hl0 in Hop. }
    destruct (sys_socket_open_socket_exits (destination t0) (port t0)
                (variant_domain P v) (variant_type P v) 0 (locked w0 l))
      as (k0 & r0 & evs0 & s0 & Hexit0 & Hrun0).
    rewrite (sys_socket_open_steps v l t0 w0 r0 _ Hl0 Hrun0) in Hop.
    destruct (Z.eqb_spec r0 (-1)) as [|Hr0]; [done|].
    injection Hop as <-.
    pose proof (exit_socket_calls _ _ _ _ _ _ _ _ _ _ Hexit0) as Hcalls0.
    split.
    - match type of Hre with
      | sys_socket_reopen v (Ptr l) ?w1 = _ =>
          destruct (Hopen (set_handle r0 t0) w1)
            as (k & r & evs & s' & _ & Hre' & Hcalls)
      end.
      { simpl. by rewrite lookup_insert_eq. }
      { done. }
      rewrite Hre' in Hre. injection Hre as <- <-.
      erewrite emitted_app; [|simpl; reflexivity].
      unfold socket_calls in *. simpl.
      rewrite omap_app. simpl. rewrite app_nil_r. exact Hcalls.
    - rewrite (emitted_app w0 _ ([EvLock l] ++ evs0 ++ [EvUnlock l])).
      + unfold socket_calls in *. simpl.
        rewrite omap_app. simpl. rewrite app_nil_r. exact Hcalls0.
      + simpl. by rewrite <- !app_assoc. }
  intros Hl Hh. split; [by apply Hopen|]. split.
  - intros w0 w1 q w2 Hop Hre. by apply (Hpair w0 w1 w2 q).
  - intros w0 w1 w2 q Hop Hre.
    destruct (Hpair w0 w1 w2 q Hop Hre) as [-> ->]. done.
Qed.

Lemma reopen_repeats_pair_of_its_variant_witness :
  mem (start 7 [5; 0; -1]) !! 1%positive = Some (collector 7) ∧
  handle (collector 7) ≠ -1 ∧
  (∃ k r evs s',
     open_socket_exit (P := scripted) "localhost" "514" 10 2 0
                      (os (start 7 [5; 0; -1])) k r evs s' ∧
     sys_socket_reopen UDP6 (Ptr 1) (start 7 [5; 0; -1])
       = Some (Ptr 1,
               mk_world s'
                 (<[1%positive := set_handle r (collector 7)]>
                    (mem (start 7 [5; 0; -1])))
                 ([] ++ [EvLock 1; EvClose 7] ++ evs ++ [EvUnlock 1])) ∧
     socket_calls evs = [(10, 2, 0)]) ∧
  (∀ w0 : world scripted, reopen_repeats_pair_of_open UDP6 UDP6 1 w0) ∧
  (∀ (w0 w1 w2 : world scripted) (q : ptr),
     sys_socket_open UDP6 (Ptr 1) w0 = Some (Ptr 1, w1) →
     sys_socket_reopen UDP6 (Ptr 1) w1 = Some (q, w2) →
     socket_calls (emitted w1 w2) = socket_calls (emitted w0 w1)).
Proof.
  split; [reflexivity|]. split; [discriminate|].
  apply (reopen_repeats_pair_of_its_variant UDP6 1 (collector 7)
           (start 7 [5; 0; -1])).
  - reflexivity.
  - discriminate.
Defined.

(** C5: every reopen variant returns the target, whatever the new connect
    attempt gives.  When the attempt fails the handle is the sentinel and
    [is_open] reports it; an open on the same failure returns the null
    pointer instead. *)
Theorem reopen_returns_target_unconditionally {P : platform} (v : variant)
    (l : positive) (t : network_target) (w : world P) :
  mem w !! l = Some t →
  ∃ w',
    sys_socket_reopen v (Ptr l) w = Some (Ptr l, w') ∧
    (∀ w1,
       handle t ≠ -1 →
       sys_socket_open_socket (destination t) (port t) (variant_domain P v)
                              (variant_type P v) 0
                              (reclosed w l (handle t)) = Some (-1, w1) →
       sys_socket_network_target_is_open (Ptr l) w' = Some (0, w')) ∧
    (∀ w1,
       sys_socket_open_socket (destination t) (port t) (variant_domain P v)
                              (variant_type P v) 0 (locked w l)
         = Some (-1, w1) →
       ∃ w2, sys_socket_open v (Ptr l) w = Some (NULL, w2)).
Proof.
  intros Hl.
  assert (Hopen : ∀ w1,
            sys_socket_open_socket (destination t) (port t)
              (variant_domain P v) (variant_type P v) 0 (locked w l)
              = Some (-1, w1) →
            ∃ w2, sys_socket_open v (Ptr l) w = Some (NULL, w2)).
  { intros w1 Hrun.
    rewrite (sys_socket_open_steps v l t w (-1) w1 Hl Hrun). eauto. }
  destruct (Z.eqb_spec (handle t) (-1)) as [Hh | Hh].
  - rewrite (sys_socket_reopen_closed_steps v l t w Hl Hh).
    eexists; split; [done|]. split; [done | exact Hopen].
  - destruct (sys_socket_open_socket_total (destination t) (port t)
                (variant_domain P v) (variant_type P v) 0
                (reclosed w l (handle t))) as (r & w1 & Hrun).
    rewrite (sys_socket_reopen_open_steps v l t w r w1 Hl Hh Hrun).
    eexists; split; [done|]. split; [|exact Hopen].
    intros w1' _ Hrun'. rewrite Hrun in Hrun'. injection Hrun' as -> ->.
    rewrite (sys_socket_is_open_steps l (set_handle (-1) t)); [done|].
    simpl. by rewrite lookup_insert_eq.
Qed.

Lemma reopen_returns_target_unconditionally_witness :
  mem (start 7 [5; 0; -1]) !! 1%positive = Some (collector 7) ∧
  ∃ w',
    sys_socket_reopen TCP4 (Ptr 1) (start 7 [5; 0; -1]) = Some (Ptr 1, w') ∧
    (∀ w1,
       handle (collector 7) ≠ -1 →
       sys_socket_open_socket "localhost" "514" 2 1 0
                              (reclosed (start 7 [5; 0; -1]) 1 7)
         = Some (-1, w1) →
       sys_socket_network_target_is_open (Ptr 1) w' = Some (0, w')) ∧
    (∀ w1,
       sys_socket_open_socket "localhost" "514" 2 1 0
                              (locked (start 7 [5; 0; -1]) 1)
         = Some (-1, w1) →
       ∃ w2, sys_socket_open TCP4 (Ptr 1) (start 7 [5; 0; -1])
             = Some (NULL, w2)).
Proof.
  split; [reflexivity|].
  apply (reopen_returns_target_unconditionally TCP4 1 (collector 7)
           (start 7 [5; 0; -1])).
  reflexivity.
Defined.

(** C6: a reopen of a target whose handle is the sentinel only takes and
    gives back the lock.  No system call is made (the platform state is
    as before), nothing is reported, and the memory, so the handle, is as
    before. *)
Theorem reopen_of_closed_target_is_noop {P : platform} (v : variant)
    (l : positive) (t : network_target) (w : world P) :
  mem w !! l = Some t →
  handle t = -1 →
  ∃ w',
    sys_socket_reopen v (Ptr l) w = Some (Ptr l, w') ∧
    os w' = os w ∧
    mem w' = mem w ∧
    emitted w w' = [EvLock l; EvUnlock l] ∧
    socket_calls (emitted w w') = [] ∧
    reports (emitted w w') = [] ∧
    sys_socket_network_target_is_open (Ptr l) w' = Some (0, w').
Proof.
  intros Hl Hh.
  rewrite (sys_socket_reopen_closed_steps v l t w Hl Hh).
  eexists; split; [done|]. simpl.
  rewrite (emitted_app w _ [EvLock l; EvUnlock l]) by done.
  repeat (split; [done|]).
  rewrite (sys_socket_is_open_steps l t); [|done].
  by rewrite Hh.
Qed.

Lemma reopen_of_closed_target_is_noop_witness :
  mem (start (-1) [5; 0; 0]) !! 1%positive = Some (collector (-1)) ∧
  handle (collector (-1)) = -1 ∧
  ∃ w',
    sys_socket_reopen UDP4 (Ptr 1) (start (-1) [5; 0; 0])
      = Some (Ptr 1, w') ∧
    os w' = os (start (-1) [5; 0; 0]) ∧
    mem w' = mem (start (-1) [5; 0; 0]) ∧
    emitted (start (-1) [5; 0; 0]) w' = [EvLock 1; EvUnlock 1] ∧
    socket_calls (emitted (start (-1) [5; 0; 0]) w') = [] ∧
    reports (emitted (start (-1) [5; 0; 0]) w') = [] ∧
    sys_socket_network_target_is_open (Ptr 1) w' = Some (0, w').
Proof.
  split; [reflexivity|]. split; [reflexivity|].
  apply (reopen_of_closed_target_is_noop UDP4 1 (collector (-1))
           (start (-1) [5; 0; 0])); reflexivity.
Defined.

(** ** Send *)

(** C4 (as amended): send passes the stored handle, whatever it is, to
    the transmission call.  When the call returns a result that fits in
    [int], as every count up to INT_MAX and the failure value -1 do, send
    returns that result; when it is -1, and only then, exactly one send
    failure carrying [errno] goes to the error sink; otherwise nothing is
    reported. *)
Theorem sendto_returns_count_or_reports_failure {P : platform}
    (l : positive) (t : network_target) (msg : list Byte.byte)
    (msg_length : Z) (w : world P) (r : Z) (s' : os_state P) :
  mem w !! l = Some t →
  os_send P (handle t) msg msg_length 0 (os w) = (r, s') →
  INT_MIN ≤ r ≤ INT_MAX →
  ∃ w',
    sys_socket_sendto_target (Ptr l) msg msg_length w = Some (r, w') ∧
    os w' = s' ∧
    mem w' = mem w ∧
    emitted w w'
      = [EvLock l; EvSend (handle t) msg msg_length 0 r; EvUnlock l]
        ++ reports (emitted w w') ∧
    reports (emitted w w')
      = (if r =? -1
         then [EvRaise SOCKET_SEND_FAILURE
                 L10N_SEND_SYS_SOCKET_FAILED_ERROR_MESSAGE
                 (os_errno P s') L10N_ERRNO_ERROR_CODE_TYPE]
         else []) ∧
    (r = -1 ↔ length (reports (emitted w w')) = 1%nat) ∧
    (r ≠ -1 ↔ reports (emitted w w') = []).
Proof.
  intros Hl Hs Hr.
  rewrite (sys_socket_sendto_steps l t msg msg_length w r s' Hl Hs).
  rewrite (to_int_id r Hr).
  eexists. split; [done|]. simpl.
  split; [done|]. split; [done|].
  erewrite emitted_app; [|simpl; reflexivity].
  destruct (Z.eqb_spec r (-1)) as [-> | Hne]; simpl.
  - repeat split; done.
  - repeat split; done.
Qed.

Lemma sendto_returns_count_or_reports_failure_witness :
  mem (start (-1) [-1]) !! 1%positive = Some (collector (-1)) ∧
  os_send scripted (handle (collector (-1))) [Byte.x68; Byte.x69] 2 0
          (os (start (-1) [-1])) = (-1, mk_script [] EBADF) ∧
  INT_MIN ≤ -1 ≤ INT_MAX ∧
  ∃ w',
    sys_socket_sendto_target (Ptr 1) [Byte.x68; Byte.x69] 2 (start (-1) [-1])
      = Some (-1, w') ∧
    os w' = mk_script [] EBADF ∧
    mem w' = mem (start (-1) [-1]) ∧
    emitted (start (-1) [-1]) w'
      = [EvLock 1;
         EvSend (handle (collector (-1))) [Byte.x68; Byte.x69] 2 0 (-1);
         EvUnlock 1]
        ++ reports (emitted (start (-1) [-1]) w') ∧
    reports (emitted (start (-1) [-1]) w')
      = (if -1 =? -1
         then [EvRaise SOCKET_SEND_FAILURE
                 L10N_SEND_SYS_SOCKET_FAILED_ERROR_MESSAGE
                 (os_errno scripted (mk_script [] EBADF))
                 L10N_ERRNO_ERROR_CODE_TYPE]
         else []) ∧
    (-1 = -1 ↔ length (reports (emitted (start (-1) [-1]) w')) = 1%nat) ∧
    (-1 ≠ -1 ↔ reports (emitted (start (-1) [-1]) w') = []).
Proof.
  split; [reflexivity|]. split; [reflexivity|].
  split; [unfold INT_MIN, INT_MAX; lia|].
  apply (sendto_returns_count_or_reports_failure 1 (collector (-1))
           [Byte.x68; Byte.x69] 2 (start (-1) [-1]) (-1)
           (mk_script [] EBADF)).
  - reflexivity.
  - reflexivity.
  - unfold INT_MIN, INT_MAX; lia.
Defined.

(** C4 (as stated) fails: the result of the transmission call is stored in
    an [int].  When the call reports 4294967295 bytes sent, send returns
    -1 and reports a send failure, although the call did not fail. *)
Lemma sendto_narrows_reported_count :
  ¬ sendto_returns_reported_count (P := scripted) 1 4294967295
      (start 3 [4294967295]).
Proof.
  intros H.
  destruct (H (collector 3) [] 4294967295 (mk_script [] 0))
    as (w' & Hrun & _); [reflexivity | reflexivity |].
  vm_compute in Hrun. discriminate Hrun.
Qed.

(** C10: in send the failure report is issued after the lock has been
    given back.  The events of a send are the critical section (lock, the
    transmission call, unlock) followed by the reports; no report occurs
    while the lock is held.  The value returned is the call's answer as
    stored in the [int] result. *)
Theorem sendto_reports_after_unlock {P : platform} (l : positive)
    (t : network_target) (msg : list Byte.byte) (msg_length : Z)
    (w : world P) :
  mem w !! l = Some t →
  ∃ sent r w' section after,
    os_send P (handle t) msg msg_length 0 (os w) = (sent, os w') ∧
    r = to_int sent ∧
    sys_socket_sendto_target (Ptr l) msg msg_length w = Some (r, w') ∧
    emitted w w' = section ++ after ∧
    section
      = [EvLock l; EvSend (handle t) msg msg_length 0 sent; EvUnlock l] ∧
    reports section = [] ∧
    reports after = after ∧
    (r = -1 → length after = 1%nat) ∧
    (r ≠ -1 → after = []) ∧
    raises_outside_lock l false (emitted w w') = true.
Proof.
  intros Hl.
  destruct (os_send P (handle t) msg msg_length 0 (os w))
    as [sent s'] eqn:Hs.
  set (after := if to_int sent =? -1
                then [EvRaise SOCKET_SEND_FAILURE
                        L10N_SEND_SYS_SOCKET_FAILED_ERROR_MESSAGE
                        (os_errno P s') L10N_ERRNO_ERROR_CODE_TYPE]
                else []).
  set (section :=
         [EvLock l; EvSend (handle t) msg msg_length 0 sent; EvUnlock l]).
  exists sent, (to_int sent).
  exists (mk_world s' (mem w) (trace w ++ section ++ after)).
  exists section, after.
  rewrite (sys_socket_sendto_steps l t msg msg_length w sent s' Hl Hs).
  split; [done|]. split; [done|]. split; [done|].
  rewrite (emitted_app w _ (section ++ after)) by done.
  subst section after.
  split; [reflexivity|]. split; [reflexivity|]. split; [reflexivity|].
  destruct (Z.eqb_spec (to_int sent) (-1)) as [Hr | Hr]; simpl.
  - repeat case_decide; by repeat split.
  - repeat case_decide; by repeat split.
Qed.

Lemma sendto_reports_after_unlock_witness :
  mem (start 7 [-1]) !! 1%positive = Some (collector 7) ∧
  ∃ sent r w' section after,
    os_send scripted (handle (collector 7)) [Byte.x68; Byte.x69] 2 0
            (os (start 7 [-1])) = (sent, os w') ∧
    r = to_int sent ∧
    sys_socket_sendto_target (Ptr 1) [Byte.x68; Byte.x69] 2 (start 7 [-1])
      = Some (r, w') ∧
    emitted (start 7 [-1]) w' = section ++ after ∧
    section
      = [EvLock 1;
         EvSend (handle (collector 7)) [Byte.x68; Byte.x69] 2 0 sent;
         EvUnlock 1] ∧
    reports section = [] ∧
    reports after = after ∧
    (r = -1 → length after = 1%nat) ∧
    (r ≠ -1 → after = []) ∧
    raises_outside_lock 1 false (emitted (start 7 [-1]) w') = true.
Proof.
  split; [reflexivity|].
  apply (sendto_reports_after_unlock 1 (collector 7) [Byte.x68; Byte.x69] 2
           (start 7 [-1])).
  reflexivity.
Defined.

(** ** Close *)

(** C7: teardown closes the descriptor exactly when the handle is not the
    sentinel, and destroys the lock exactly once, last.  On a target that
    was never opened no close is issued. *)
Theorem close_closes_open_handle_and_destroys_lock {P : platform}
    (l : positive) (t : network_target) (w : world P) :
  mem w !! l = Some t →
  ∃ w',
    sys_socket_close_network_target (Ptr l) w = Some (tt, w') ∧
    mem w' = mem w ∧
    emitted w w'
      = (if handle t =? -1 then [] else [EvClose (handle t)])
        ++ [EvDestroyMutex l] ∧
    (handle t ≠ -1 ↔ released (emitted w w') = [Descriptor (handle t)]) ∧
    (handle t = -1 ↔ released (emitted w w') = []) ∧
    mutex_destroys (emitted w w') = [l].
Proof.
  intros Hl.
  rewrite (sys_socket_close_steps l t w Hl).
  eexists; split; [done|]. simpl. split; [done|].
  erewrite emitted_app; [|simpl; reflexivity].
  split; [done|].
  destruct (Z.eqb_spec (handle t) (-1)) as [Hh | Hh]; simpl;
    unfold released; simpl; repeat split; try done.
Qed.

Lemma close_closes_open_handle_and_destroys_lock_witness :
  mem (start (-1) []) !! 1%positive = Some (collector (-1)) ∧
  ∃ w',
    sys_socket_close_network_target (Ptr 1) (start (-1) []) = Some (tt, w') ∧
    mem w' = mem (start (-1) []) ∧
    emitted (start (-1) []) w'
      = (if handle (collector (-1)) =? -1
         then []
         else [EvClose (handle (collector (-1)))])
        ++ [EvDestroyMutex 1] ∧
    (handle (collector (-1)) ≠ -1
       ↔ released (emitted (start (-1) []) w')
         = [Descriptor (handle (collector (-1)))]) ∧
    (handle (collector (-1)) = -1
       ↔ released (emitted (start (-1) []) w') = []) ∧
    mutex_destroys (emitted (start (-1) []) w') = [1%positive].
Proof.
  split; [reflexivity|].
  apply (close_closes_open_handle_and_destroys_lock 1 (collector (-1))
           (start (-1) [])).
  reflexivity.
Defined.

(** ** Frame *)

(** C8: open, reopen, send and is_open leave the destination and the port
    of the target as they were: the structure after the call is the one
    before with, at most, another handle, and no other target changes. *)
Theorem operations_mutate_only_handle {P : platform} (op : operation)
    (l : positive) (t : network_target) (w : world P) :
  mem w !! l = Some t →
  ∃ w' h t',
    perform op (Ptr l) w = Some w' ∧
    mem w' = <[l := set_handle h t]> (mem w) ∧
    mem w' !! l = Some t' ∧
    destination t' = destination t ∧
    port t' = port t ∧
    (∀ l', l' ≠ l → mem w' !! l' = mem w !! l').
Proof.
  intros Hl.
  assert (Hsame : ∀ (s : os_state P) (tr : list event),
            ∃ h t',
              mem (mk_world s (mem w) tr) = <[l := set_handle h t]> (mem w) ∧
              mem (mk_world s (mem w) tr) !! l = Some t' ∧
              destination t' = destination t ∧ port t' = port t ∧
              (∀ l', l' ≠ l →
                 mem (mk_world s (mem w) tr) !! l' = mem w !! l')).
  { intros s tr. exists (handle t), t. simpl.
    rewrite set_handle_same, insert_id by done. done. }
  assert (Hset : ∀ (s : os_state P) (tr : list event) (h : Z),
            ∃ h0 t',
              mem (mk_world s (<[l := set_handle h t]> (mem w)) tr)
                = <[l := set_handle h0 t]> (mem w) ∧
              mem (mk_world s (<[l := set_handle h t]> (mem w)) tr) !! l
                = Some t' ∧
              destination t' = destination t ∧ port t' = port t ∧
              (∀ l', l' ≠ l →
                 mem (mk_world s (<[l := set_handle h t]> (mem w)) tr) !! l'
                 = mem w !! l')).
  { intros s tr h. exists h, (set_handle h t). simpl.
    rewrite lookup_insert_eq. repeat split; try done.
    intros l' Hne. by rewrite lookup_insert_ne. }
  destruct op as [v | v | msg msg_length |]; simpl.
  - destruct (sys_socket_open_socket_total (destination t) (port t)
                (variant_domain P v) (variant_type P v) 0 (locked w l))
      as (r & w1 & Hrun).
    rewrite (sys_socket_open_steps v l t w r w1 Hl Hrun). simpl.
    destruct (Hset (os w1) (trace w1 ++ [EvUnlock l]) r) as (h & t' & H).
    eauto.
  - destruct (Z.eqb_spec (handle t) (-1)) as [Hh | Hh].
    + rewrite (sys_socket_reopen_closed_steps v l t w Hl Hh). simpl.
      destruct (Hsame (os w) (trace w ++ [EvLock l; EvUnlock l]))
        as (h & t' & H).
      eauto.
    + destruct (sys_socket_open_socket_total (destination t) (port t)
                  (variant_domain P v) (variant_type P v) 0
                  (reclosed w l (handle t))) as (r & w1 & Hrun).
      rewrite (sys_socket_reopen_open_steps v l t w r w1 Hl Hh Hrun). simpl.
      destruct (Hset (os w1) (trace w1 ++ [EvUnlock l]) r) as (h & t' & H).
      eauto.
  - destruct (os_send P (handle t) msg msg_length 0 (os w)) as [r s'] eqn:Hs.
    rewrite (sys_socket_sendto_steps l t msg msg_length w r s' Hl Hs). simpl.
    edestruct Hsame as (h & t' & H). eauto.
  - rewrite (sys_socket_is_open_steps l t w Hl). simpl.
    destruct (Hsame (os w) (trace w)) as (h & t' & H).
    destruct w; eauto.
Qed.

Lemma operations_mutate_only_handle_witness :
  mem (start (-1) [5; 0; 0]) !! 1%positive = Some (collector (-1)) ∧
  ∃ w' h t',
    perform (OpOpen UDP4) (Ptr 1) (start (-1) [5; 0; 0]) = Some w' ∧
    mem w' = <[1%positive := set_handle h (collector (-1))]>
               (mem (start (-1) [5; 0; 0])) ∧
    mem w' !! 1%positive = Some t' ∧
    destination t' = destination (collector (-1)) ∧
    port t' = port (collector (-1)) ∧
    (∀ l', l' ≠ 1%positive →
       mem w' !! l' = mem (start (-1) [5; 0; 0]) !! l').
Proof.
  split; [reflexivity|].
  apply (operations_mutate_only_handle (OpOpen UDP4) 1 (collector (-1))
           (start (-1) [5; 0; 0])).
  reflexivity.
Defined.

(** * Further properties of the backend *)

Section MoreRuns.
Context {P : platform}.
Implicit Types (w : world P) (l : positive) (t : network_target)
  (v : variant).

Lemma sys_socket_init_steps l t w :
  mem w !! l = Some t →
  sys_socket_init_network_target (Ptr l) w
    = Some (tt,
            mk_world (os w) (<[l := set_handle (-1) t]> (mem w))
                     (trace w ++ [EvInitMutex l])).
Proof.
  intros Hl.
  unfold sys_socket_init_network_target, config_init_mutex, mutex_op,
    assign_handle, log, mbind, M_bind.
  rewrite Hl. simpl. by rewrite lookup_insert_eq.
Qed.

(** An open as a whole: the events of the primitive between lock and
    unlock. *)
Lemma sys_socket_open_trace v l t w :
  mem w !! l = Some t →
  ∃ k r evs s',
    open_socket_exit (destination t) (port t) (variant_domain P v)
                     (variant_type P v) 0 (os w) k r evs s' ∧
    sys_socket_open v (Ptr l) w
      = Some (if r =? -1 then NULL else Ptr l,
              mk_world s' (<[l := set_handle r t]> (mem w))
                (trace w ++ [EvLock l] ++ evs ++ [EvUnlock l])).
Proof.
  intros Hl.
  destruct (sys_socket_open_socket_exits (destination t) (port t)
              (variant_domain P v) (variant_type P v) 0 (locked w l))
    as (k & r & evs & s' & Hexit & Hrun).
  exists k, r, evs, s'. split; [done|].
  rewrite (sys_socket_open_steps v l t w r _ Hl Hrun). simpl.
  by rewrite <- !app_assoc.
Qed.

(** A reopen of an open target as a whole. *)
Lemma sys_socket_reopen_trace v l t w :
  mem w !! l = Some t →
  handle t ≠ -1 →
  ∃ k r evs s',
    open_socket_exit (destination t) (port t) (variant_domain P v)
                     (variant_type P v) 0 (os_close P (handle t) (os w))
                     k r evs s' ∧
    sys_socket_reopen v (Ptr l) w
      = Some (Ptr l,
              mk_world s' (<[l := set_handle r t]> (mem w))
                (trace w ++ [EvLock l; EvClose (handle t)] ++ evs
                 ++ [EvUnlock l])).
Proof.
  intros Hl Hh.
  destruct (sys_socket_open_socket_exits (destination t) (port t)
              (variant_domain P v) (variant_type P v) 0
              (reclosed w l (handle t)))
    as (k & r & evs & s' & Hexit & Hrun).
  exists k, r, evs, s'. split; [done|].
  rewrite (sys_socket_reopen_open_steps v l t w r _ Hl Hh Hrun). simpl.
  by rewrite <- !app_assoc.
Qed.

End MoreRuns.

Section Frames.
Context {P : platform}.
Implicit Types (w : world P) (l : positive) (t : network_target)
  (v : variant).

(** The primitive neither reads nor writes the memory of the targets. *)
Lemma sys_socket_open_socket_frame dest service domain type protocol w
    (m : gmap positive network_target) :
  sys_socket_open_socket dest service domain type protocol
                         (mk_world (os w) m (trace w))
  = (λ '(r, w'), (r, mk_world (os w') m (trace w')))
      <$> sys_socket_open_socket dest service domain type protocol w.
Proof.
  unfold sys_socket_open_socket, socket, getaddrinfo, connect, addrinfo_at,
    errno, raise_socket_failure, raise_address_failure,
    raise_socket_connect_failure, fail_connect, fail_addr, fail,
    freeaddrinfo, close, log, syscall, mbind, mret, M_bind, M_ret.
  destruct w as [s m0 tr]; simpl.
  destruct (os_socket P domain type protocol s) as [h s1]; simpl.
  destruct (h =? -1); simpl; [done|].
  destruct (os_getaddrinfo P dest service _ s1) as [[rc a] s2]; simpl.
  destruct (rc =? 0); simpl; [|done].
  destruct (os_connect P h _ _ s2) as [c s3]; simpl.
  by destruct (c =? -1).
Qed.

Lemma set_handle_twice (h h' : Z) t :
  set_handle h (set_handle h' t) = set_handle h t.
Proof. done. Qed.

(** Lock and unlock do not count in the accounting. *)
Lemma audit_from_critical_section (L : ledger) l (evs : list event) :
  audit_from L ([EvLock l] ++ evs ++ [EvUnlock l]) = audit_from L evs.
Proof.
  rewrite !audit_from_app. simpl.
  unfold account at 2. simpl. unfold account at 1. simpl.
  by destruct (audit_from _ evs).
Qed.

End Frames.

(** ** Initialisation *)

(** X1: initialisation overwrites the handle, whatever it held, with the
    sentinel and initialises the mutex, without any system call.  The
    target is then not open, every reopen of it is a no-op, and a teardown
    closes no descriptor. *)
Theorem init_leaves_target_closed {P : platform} (l : positive)
    (t : network_target) (w : world P) :
  mem w !! l = Some t →
  ∃ w',
    sys_socket_init_network_target (Ptr l) w = Some (tt, w') ∧
    os w' = os w ∧
    emitted w w' = [EvInitMutex l] ∧
    mem w' = <[l := set_handle (-1) t]> (mem w) ∧
    sys_socket_network_target_is_open (Ptr l) w' = Some (0, w') ∧
    (∀ v, ∃ w2,
       sys_socket_reopen v (Ptr l) w' = Some (Ptr l, w2) ∧
       os w2 = os w' ∧ mem w2 = mem w' ∧
       emitted w' w2 = [EvLock l; EvUnlock l]) ∧
    (∃ w2,
       sys_socket_close_network_target (Ptr l) w' = Some (tt, w2) ∧
       os w2 = os w' ∧
       emitted w' w2 = [EvDestroyMutex l]).
Proof.
  intros Hl.
  rewrite (sys_socket_init_steps l t w Hl).
  eexists; split; [done|]. simpl.
  assert (Hl' : (<[l := set_handle (-1) t]> (mem w)) !! l
                = Some (set_handle (-1) t)) by by rewrite lookup_insert_eq.
  split; [done|].
  split; [by apply emitted_app|].
  split; [done|].
  split; [by rewrite (sys_socket_is_open_steps l (set_handle (-1) t))|].
  split.
  - intros v.
    rewrite (sys_socket_reopen_closed_steps v l (set_handle (-1) t)) by done.
    eexists; split; [done|]. simpl.
    split; [done|]. split; [done|]. by apply emitted_app.
  - rewrite (sys_socket_close_steps l (set_handle (-1) t)) by done.
    eexists; split; [done|]. simpl.
    split; [done|]. by apply emitted_app.
Qed.

Lemma init_leaves_target_closed_witness :
  mem (start 42 [5; 0; 0]) !! 1%positive = Some (collector 42) ∧
  ∃ w',
    sys_socket_init_network_target (Ptr 1) (start 42 [5; 0; 0])
      = Some (tt, w') ∧
    os w' = os (start 42 [5; 0; 0]) ∧
    emitted (start 42 [5; 0; 0]) w' = [EvInitMutex 1] ∧
    mem w' = <[1%positive := set_handle (-1) (collector 42)]>
               (mem (start 42 [5; 0; 0])) ∧
    sys_socket_network_target_is_open (Ptr 1) w' = Some (0, w') ∧
    (∀ v, ∃ w2,
       sys_socket_reopen v (Ptr 1) w' = Some (Ptr 1, w2) ∧
       os w2 = os w' ∧ mem w2 = mem w' ∧
       emitted w' w2 = [EvLock 1; EvUnlock 1]) ∧
    (∃ w2,
       sys_socket_close_network_target (Ptr 1) w' = Some (tt, w2) ∧
       os w2 = os w' ∧
       emitted w' w2 = [EvDestroyMutex 1]).
Proof.
  split; [reflexivity|].
  apply (init_leaves_target_closed 1 (collector 42) (start 42 [5; 0; 0])).
  reflexivity.
Defined.

(** ** Open and the handle it finds *)

(** X2: an open never reads the handle the target holds: run on the same
    world with any other handle stored, it returns the same pointer and
    leaves the same world. *)
Theorem open_ignores_stored_handle {P : platform} (v : variant)
    (l : positive) (t : network_target) (w : world P) (h : Z) :
  mem w !! l = Some t →
  sys_socket_open v (Ptr l) (with_handle w l t h)
  = sys_socket_open v (Ptr l) w.
Proof.
  intros Hl.
  destruct (sys_socket_open_socket_total (destination t) (port t)
              (variant_domain P v) (variant_type P v) 0 (locked w l))
    as (r & w1 & Hrun).
  rewrite (sys_socket_open_steps v l t w r w1 Hl Hrun).
  rewrite (sys_socket_open_steps v l (set_handle h t) (with_handle w l t h) r
             (mk_world (os w1) (<[l := set_handle h t]> (mem w)) (trace w1))).
  - simpl. by rewrite insert_insert_eq.
  - simpl. by rewrite lookup_insert_eq.
  - simpl. unfold locked, with_handle. simpl.
    rewrite (sys_socket_open_socket_frame _ _ _ _ _ (locked w l)).
    by rewrite Hrun.
Qed.

Lemma open_ignores_stored_handle_witness :
  mem (start (-1) [5; 0; 0]) !! 1%positive = Some (collector (-1)) ∧
  sys_socket_open TCP6 (Ptr 1)
    (with_handle (start (-1) [5; 0; 0]) 1 (collector (-1)) 9)
  = sys_socket_open TCP6 (Ptr 1) (start (-1) [5; 0; 0]).
Proof.
  split; [reflexivity|].
  apply (open_ignores_stored_handle TCP6 1 (collector (-1))
           (start (-1) [5; 0; 0]) 9).
  reflexivity.
Defined.

(** ** Descriptors across calls *)

(** X3: an open releases nothing but what it acquired itself.  After the
    call the live resources are those live before plus, when the open
    succeeded, the descriptor now in [handle]; so a descriptor the target
    held before the call, if it was live, is still live afterwards,
    although the target may no longer refer to it. *)
Theorem open_keeps_previous_descriptor_live {P : platform} (v : variant)
    (l : positive) (t : network_target) (w : world P) :
  mem w !! l = Some t →
  ∃ ret w' t',
    sys_socket_open v (Ptr l) w = Some (ret, w') ∧
    mem w' !! l = Some t' ∧
    audit (trace w')
      = mk_ledger (if handle t' =? -1
                   then live (audit (trace w))
                   else Descriptor (handle t') :: live (audit (trace w)))
                  (stray (audit (trace w))) ∧
    (Descriptor (handle t) ∈ live (audit (trace w)) →
     Descriptor (handle t) ∈ live (audit (trace w'))).
Proof.
  intros Hl.
  destruct (sys_socket_open_trace v l t w Hl)
    as (k & r & evs & s' & Hexit & Hrun).
  rewrite Hrun. eexists; eexists; exists (set_handle r t).
  split; [done|]. cbn [mem trace handle set_handle].
  split; [by rewrite lookup_insert_eq|].
  assert (Haudit :
    audit (trace w ++ [EvLock l] ++ evs ++ [EvUnlock l])
    = mk_ledger (if r =? -1
                 then live (audit (trace w))
                 else Descriptor r :: live (audit (trace w)))
                (stray (audit (trace w)))).
  { unfold audit. rewrite audit_from_app, audit_from_critical_section.
    rewrite (exit_audit _ _ _ _ _ _ _ _ _ _ Hexit).
    pose proof (exit_sentinel_iff_failed _ _ _ _ _ _ _ _ _ _ Hexit) as Hsen.
    destruct (Z.eqb_spec r (-1)) as [Hr | Hr].
    - apply Hsen in Hr. by destruct k.
    - destruct k; try done; exfalso; apply Hr, Hsen; done. }
  split; [exact Haudit|].
  rewrite Haudit. simpl. intros Hin.
  destruct (r =? -1); [done|]. by apply list_elem_of_further.
Qed.

Lemma open_keeps_previous_descriptor_live_witness :
  mem (start 7 [5; 0; 0]) !! 1%positive = Some (collector 7) ∧
  ∃ ret w' t',
    sys_socket_open UDP4 (Ptr 1) (start 7 [5; 0; 0]) = Some (ret, w') ∧
    mem w' !! 1%positive = Some t' ∧
    audit (trace w')
      = mk_ledger (if handle t' =? -1
                   then live (audit (trace (start 7 [5; 0; 0])))
                   else Descriptor (handle t')
                        :: live (audit (trace (start 7 [5; 0; 0]))))
                  (stray (audit (trace (start 7 [5; 0; 0])))) ∧
    (Descriptor (handle (collector 7))
       ∈ live (audit (trace (start 7 [5; 0; 0]))) →
     Descriptor (handle (collector 7)) ∈ live (audit (trace w'))).
Proof.
  split; [reflexivity|].
  apply (open_keeps_previous_descriptor_live UDP4 1 (collector 7)
           (start 7 [5; 0; 0])).
  reflexivity.
Defined.

(** X4: a reopen of an open target whose descriptor is live gives that
    descriptor back exactly once and keeps at most the new one: the live
    resources afterwards are the others that were live plus, when the
    attempt succeeded, the descriptor now in [handle]; nothing is released
    that was not live. *)
Theorem reopen_trades_descriptor {P : platform} (v : variant)
    (l : positive) (t : network_target) (w : world P)
    (others : list resource) :
  mem w !! l = Some t →
  handle t ≠ -1 →
  remove_first (Descriptor (handle t)) (live (audit (trace w)))
    = Some others →
  ∃ w' t',
    sys_socket_reopen v (Ptr l) w = Some (Ptr l, w') ∧
    mem w' !! l = Some t' ∧
    audit (trace w')
      = mk_ledger (if handle t' =? -1
                   then others
                   else Descriptor (handle t') :: others)
                  (stray (audit (trace w))).
Proof.
  intros Hl Hh Hlive.
  destruct (sys_socket_reopen_trace v l t w Hl Hh)
    as (k & r & evs & s' & Hexit & Hrun).
  rewrite Hrun. eexists; exists (set_handle r t).
  split; [done|]. cbn [mem trace handle set_handle].
  split; [by rewrite lookup_insert_eq|].
  unfold audit in *.
  change ([EvLock l; EvClose (handle t)] ++ evs ++ [EvUnlock l])
    with ([EvLock l] ++ ([EvClose (handle t)] ++ evs) ++ [EvUnlock l]).
  rewrite audit_from_app, audit_from_critical_section, audit_from_app.
  rewrite (exit_audit _ _ _ _ _ _ _ _ _ _ Hexit).
  destruct (audit_from _ (trace w)) as [lv st]. simpl in Hlive |- *.
  unfold account; simpl. rewrite Hlive. simpl.
  pose proof (exit_sentinel_iff_failed _ _ _ _ _ _ _ _ _ _ Hexit) as Hsen.
  destruct (Z.eqb_spec r (-1)) as [Hr | Hr].
  - apply Hsen in Hr. by destruct k.
  - destruct k; try done; exfalso; apply Hr, Hsen; done.
Qed.

Lemma reopen_trades_descriptor_witness :
  mem (opened 7 [5; 0; -1]) !! 1%positive = Some (collector 7) ∧
  handle (collector 7) ≠ -1 ∧
  remove_first (Descriptor (handle (collector 7)))
               (live (audit (trace (opened 7 [5; 0; -1])))) = Some [] ∧
  ∃ w' t',
    sys_socket_reopen TCP4 (Ptr 1) (opened 7 [5; 0; -1])
      = Some (Ptr 1, w') ∧
    mem w' !! 1%positive = Some t' ∧
    audit (trace w')
      = mk_ledger (if handle t' =? -1
                   then []
                   else Descriptor (handle t') :: [])
                  (stray (audit (trace (opened 7 [5; 0; -1])))).
Proof.
  split; [reflexivity|]. split; [discriminate|]. split; [reflexivity|].
  apply (reopen_trades_descriptor TCP4 1 (collector 7)
           (opened 7 [5; 0; -1]) []).
  - reflexivity.
  - discriminate.
  - reflexivity.
Defined.

(** ** What is reported, and when *)

(** X5: the primitive reports exactly one error on each failure path and
    none on success.  A socket-creation failure carries the [errno] left
    by [socket]; a resolution failure carries the value [getaddrinfo]
    returned, tagged as such, not [errno]; a connect failure carries the
    [errno] left by [connect], read before the address list is freed and
    the socket closed. *)
Theorem open_socket_classifies_its_failure {P : platform}
    (dest service : string) (domain type protocol : Z) (w : world P) :
  let s1 := (os_socket P domain type protocol (os w)).2 in
  let h := (os_socket P domain type protocol (os w)).1 in
  let g := os_getaddrinfo P dest service
             (resolver_hints domain type protocol) s1 in
  let first := os_addrinfo_at P g.1.2 g.2 in
  let s3 := (os_connect P h (ai_addr first) (ai_addrlen first) g.2).2 in
  ∃ k r evs w',
    sys_socket_open_socket dest service domain type protocol w
      = Some (r, w') ∧
    emitted w w' = evs ∧
    open_socket_exit dest service domain type protocol (os w) k r evs
                     (os w') ∧
    reports evs
      = match k with
        | ExitSocketFailed =>
            [EvRaise SOCKET_FAILURE L10N_SOCKET_FAILED_ERROR_MESSAGE
                     (os_errno P s1) L10N_ERRNO_ERROR_CODE_TYPE]
        | ExitResolveFailed =>
            [EvRaise ADDRESS_FAILURE L10N_GETADDRINFO_FAILURE_ERROR_MESSAGE
                     g.1.1 L10N_GETADDRINFO_RETURN_ERROR_CODE_TYPE]
        | ExitConnectFailed =>
            [EvRaise SOCKET_CONNECT_FAILURE
                     L10N_CONNECT_SYS_SOCKET_FAILED_ERROR_MESSAGE
                     (os_errno P s3) L10N_ERRNO_ERROR_CODE_TYPE]
        | ExitConnected => []
        end.
Proof.
  intros s1 h g first s3.
  destruct (sys_socket_open_socket_exits dest service domain type protocol w)
    as (k & r & evs & s' & Hexit & Hrun).
  exists k, r, evs. eexists. split; [exact Hrun|].
  split; [by apply emitted_app|]. split; [done|].
  subst s1 h g first s3. simpl in Hexit.
  destruct Hexit as [s1 Hs | h s1 rc a s2 Hs Hh Hg Hrc
                    | h s1 a s2 s3 Hs Hh Hg Hc
                    | h s1 a s2 c s3 Hs Hh Hg Hc Hcn];
    try rewrite Hs; simpl; try rewrite Hg; simpl; try rewrite Hc; done.
Qed.

(** X6: an open reports the failure of its connect attempt while it
    still holds the lock of the target, whereas a send reports after
    giving the lock back: scanning the events of an open, no report
    occurs under the lock exactly when the open succeeded. *)
Theorem open_reports_under_lock {P : platform} (v : variant) (l : positive)
    (t : network_target) (w : world P) :
  mem w !! l = Some t →
  ∃ ret w',
    sys_socket_open v (Ptr l) w = Some (ret, w') ∧
    (raises_outside_lock l false (emitted w w') = true ↔ ret = Ptr l) ∧
    (raises_outside_lock l false (emitted w w') = false ↔ ret = NULL).
Proof.
  intros Hl.
  destruct (sys_socket_open_trace v l t w Hl)
    as (k & r & evs & s' & Hexit & Hrun).
  rewrite Hrun. eexists; eexists. split; [done|].
  erewrite emitted_app; [|cbn [trace]; reflexivity].
  destruct Hexit as [s1 Hs | h s1 rc a s2 Hs Hh Hg Hrc
                    | h s1 a s2 s3 Hs Hh Hg Hc
                    | h s1 a s2 c s3 Hs Hh Hg Hc Hcn];
    simpl; rewrite ?decide_True by done; simpl;
    try (by split; split).
  apply Z.eqb_neq in Hh. rewrite Hh. by split; split.
Qed.

Lemma open_reports_under_lock_witness :
  mem (start (-1) [5; 0; -1]) !! 1%positive = Some (collector (-1)) ∧
  ∃ ret w',
    sys_socket_open TCP4 (Ptr 1) (start (-1) [5; 0; -1]) = Some (ret, w') ∧
    (raises_outside_lock 1 false (emitted (start (-1) [5; 0; -1]) w') = true
       ↔ ret = Ptr 1) ∧
    (raises_outside_lock 1 false (emitted (start (-1) [5; 0; -1]) w') = false
       ↔ ret = NULL).
Proof.
  split; [reflexivity|].
  apply (open_reports_under_lock TCP4 1 (collector (-1))
           (start (-1) [5; 0; -1])).
  reflexivity.
Defined.

(** ** The lock *)

(** X7: open, reopen and send each run one critical section: the lock of
    the target is taken exactly once, first of all, and given back
    exactly once, before the call returns, on every path, and every
    system call they make is made while it is held; is_open takes no lock
    and makes no system call.  Teardown takes no lock and gives none back:
    its [close] of an open handle is made outside any critical section. *)
Theorem operations_pair_lock_and_unlock {P : platform} (op : operation)
    (l : positive) (t : network_target) (w : world P) :
  mem w !! l = Some t →
  (∃ w',
     perform op (Ptr l) w = Some w' ∧
     locks (emitted w w') = locks_of op l ∧
     unlocks (emitted w w') = locks_of op l ∧
     match op with
     | OpIsOpen => emitted w w' = []
     | _ => ∃ rest, emitted w w' = EvLock l :: rest
     end ∧
     lock_after l false (emitted w w') = Some false ∧
     syscalls_inside_lock l false (emitted w w') = true) ∧
  (∃ w',
     sys_socket_close_network_target (Ptr l) w = Some (tt, w') ∧
     locks (emitted w w') = [] ∧
     unlocks (emitted w w') = [] ∧
     lock_after l false (emitted w w') = Some false ∧
     (syscalls_inside_lock l false (emitted w w') = true ↔ handle t = -1)).
Proof.
  intros Hl. split.
  - destruct op as [v | v | msg msg_length |]; simpl.
    + destruct (sys_socket_open_trace v l t w Hl)
        as (k & r & evs & s' & Hexit & Hrun).
      rewrite Hrun. eexists; split; [done|].
      erewrite emitted_app; [|cbn [trace snd]; reflexivity].
      destruct Hexit; simpl; rewrite ?decide_True by done;
        repeat split; eauto.
    + destruct (Z.eqb_spec (handle t) (-1)) as [Hh | Hh].
      * rewrite (sys_socket_reopen_closed_steps v l t w Hl Hh).
        eexists; split; [done|].
        erewrite emitted_app; [|cbn [trace snd]; reflexivity].
        simpl; rewrite ?decide_True by done; repeat split; eauto.
      * destruct (sys_socket_reopen_trace v l t w Hl Hh)
          as (k & r & evs & s' & Hexit & Hrun).
        rewrite Hrun. eexists; split; [done|].
        erewrite emitted_app; [|cbn [trace snd]; reflexivity].
        destruct Hexit; simpl; rewrite ?decide_True by done;
          repeat split; eauto.
    + destruct (os_send P (handle t) msg msg_length 0 (os w))
        as [r s'] eqn:Hs.
      rewrite (sys_socket_sendto_steps l t msg msg_length w r s' Hl Hs).
      eexists; split; [done|].
      erewrite emitted_app; [|cbn [trace snd]; reflexivity].
      destruct (to_int r =? -1); simpl; rewrite ?decide_True by done;
        repeat split; eauto.
    + rewrite (sys_socket_is_open_steps l t w Hl).
      eexists; split; [done|]. simpl.
      unfold emitted. by rewrite drop_all.
  - rewrite (sys_socket_close_steps l t w Hl).
    eexists; split; [done|].
    erewrite emitted_app; [|cbn [trace]; reflexivity].
    destruct (Z.eqb_spec (handle t) (-1)) as [Hh | Hh]; simpl.
    + done.
    + repeat split; done.
Qed.

Lemma operations_pair_lock_and_unlock_witness :
  mem (start 7 [5; 0; -1]) !! 1%positive = Some (collector 7) ∧
  (∃ w',
     perform (OpReopen UDP6) (Ptr 1) (start 7 [5; 0; -1]) = Some w' ∧
     locks (emitted (start 7 [5; 0; -1]) w') = locks_of (OpReopen UDP6) 1 ∧
     unlocks (emitted (start 7 [5; 0; -1]) w')
       = locks_of (OpReopen UDP6) 1 ∧
     (∃ rest, emitted (start 7 [5; 0; -1]) w' = EvLock 1 :: rest) ∧
     lock_after 1 false (emitted (start 7 [5; 0; -1]) w') = Some false ∧
     syscalls_inside_lock 1 false (emitted (start 7 [5; 0; -1]) w') = true) ∧
  (∃ w',
     sys_socket_close_network_target (Ptr 1) (start 7 [5; 0; -1])
       = Some (tt, w') ∧
     locks (emitted (start 7 [5; 0; -1]) w') = [] ∧
     unlocks (emitted (start 7 [5; 0; -1]) w') = [] ∧
     lock_after 1 false (emitted (start 7 [5; 0; -1]) w') = Some false ∧
     (syscalls_inside_lock 1 false (emitted (start 7 [5; 0; -1]) w') = true
        ↔ handle (collector 7) = -1)).
Proof.
  split; [reflexivity|].
  apply (operations_pair_lock_and_unlock (OpReopen UDP6) 1 (collector 7)
           (start 7 [5; 0; -1])).
  reflexivity.
Defined.

(** ** Reopening a target that is not open *)

(** X8: no number of reopens, of whatever variants, reconnects a target
    whose handle is the sentinel: each one only takes and gives back the
    lock, no system call is made, and the target stays not open.  After a
    failed open or reopen only an open can connect the target again. *)
Theorem reopen_each_of_closed_target {P : platform} (vs : list variant)
    (l : positive) (t : network_target) (w : world P) :
  mem w !! l = Some t →
  handle t = -1 →
  ∃ w',
    reopen_each vs (Ptr l) w = Some (tt, w') ∧
    os w' = os w ∧
    mem w' = mem w ∧
    emitted w w' = concat (map (λ _, [EvLock l; EvUnlock l]) vs) ∧
    socket_calls (emitted w w') = [] ∧
    sys_socket_network_target_is_open (Ptr l) w' = Some (0, w').
Proof.
  intros Hl Hh.
  assert (Hrun : ∀ (us : list variant) (w : world P),
            mem w !! l = Some t →
            reopen_each us (Ptr l) w
            = Some (tt, mk_world (os w) (mem w)
                          (trace w
                           ++ concat (map (λ _, [EvLock l; EvUnlock l]) us)))).
  { clear w Hl. intros us.
    induction us as [|v us IH]; intros w Hl; simpl.
    - rewrite app_nil_r. by destruct w.
    - unfold mbind, M_bind.
      rewrite (sys_socket_reopen_closed_steps v l t w Hl Hh).
      rewrite IH by done. simpl. by rewrite <- app_assoc. }
  rewrite (Hrun vs w Hl). eexists; split; [done|]. simpl.
  split; [done|]. split; [done|].
  rewrite (emitted_app w _ (concat (map (λ _, [EvLock l; EvUnlock l]) vs)))
    by done.
  split; [done|]. split.
  - clear. induction vs as [|v vs IH]; [done | exact IH].
  - rewrite (sys_socket_is_open_steps l t) by done. by rewrite Hh.
Qed.

Lemma reopen_each_of_closed_target_witness :
  mem (start (-1) [5; 0; 0]) !! 1%positive = Some (collector (-1)) ∧
  handle (collector (-1)) = -1 ∧
  ∃ w',
    reopen_each [TCP4; UDP6; TCP4] (Ptr 1) (start (-1) [5; 0; 0])
      = Some (tt, w') ∧
    os w' = os (start (-1) [5; 0; 0]) ∧
    mem w' = mem (start (-1) [5; 0; 0]) ∧
    emitted (start (-1) [5; 0; 0]) w'
      = concat (map (λ _, [EvLock 1; EvUnlock 1]) [TCP4; UDP6; TCP4]) ∧
    socket_calls (emitted (start (-1) [5; 0; 0]) w') = [] ∧
    sys_socket_network_target_is_open (Ptr 1) w' = Some (0, w').
Proof.
  split; [reflexivity|]. split; [reflexivity|].
  apply (reopen_each_of_closed_target [TCP4; UDP6; TCP4] 1 (collector (-1))
           (start (-1) [5; 0; 0])); reflexivity.
Defined.

(** ** One attempt per call *)

(** X9: an open or a reopen makes one attempt and no more.  It calls
    [socket] at most once, [getaddrinfo] at most once and [connect] at
    most once: there is no retry and no fallback to a further address of
    the list.  The resolver is asked for the target's own destination and
    port, with hints that name the variant's family and socket type,
    protocol 0, and are zero everywhere else. *)
Theorem open_and_reopen_attempt_once {P : platform} (op : operation)
    (v : variant) (l : positive) (t : network_target) (w : world P) :
  mem w !! l = Some t →
  op = OpOpen v ∨ op = OpReopen v →
  ∃ w',
    perform op (Ptr l) w = Some w' ∧
    (socket_calls (emitted w w') = [] ∨
     socket_calls (emitted w w')
       = [(variant_domain P v, variant_type P v, 0)]) ∧
    (resolver_calls (emitted w w') = [] ∨
     resolver_calls (emitted w w')
       = [(destination t, port t,
           mk_addrinfo 0 (variant_domain P v) (variant_type P v) 0
                       0 0 0 0)]) ∧
    (length (connect_calls (emitted w w')) ≤ 1)%nat ∧
    (op = OpOpen v → length (socket_calls (emitted w w')) = 1%nat).
Proof.
  intros Hl Hop.
  assert (Hexits : ∀ (s s' : os_state P) k r evs,
            open_socket_exit (destination t) (port t) (variant_domain P v)
                             (variant_type P v) 0 s k r evs s' →
            socket_calls evs = [(variant_domain P v, variant_type P v, 0)] ∧
            (resolver_calls evs = [] ∨
             resolver_calls evs
               = [(destination t, port t,
                   mk_addrinfo 0 (variant_domain P v) (variant_type P v) 0
                               0 0 0 0)]) ∧
            (length (connect_calls evs) ≤ 1)%nat).
  { intros s s' k r evs Hexit.
    destruct Hexit; simpl; repeat split; auto. }
  destruct Hop as [-> | ->]; simpl.
  - destruct (sys_socket_open_trace v l t w Hl)
      as (k & r & evs & s' & Hexit & Hrun).
    rewrite Hrun. eexists; split; [done|].
    erewrite emitted_app; [|cbn [trace]; reflexivity].
    destruct (Hexits _ _ _ _ _ Hexit) as (Hs & Hr & Hc).
    unfold socket_calls, resolver_calls, connect_calls in *. simpl.
    rewrite !omap_app. simpl. rewrite !app_nil_r. rewrite Hs.
    repeat split; auto.
  - destruct (Z.eqb_spec (handle t) (-1)) as [Hh | Hh].
    + rewrite (sys_socket_reopen_closed_steps v l t w Hl Hh).
      eexists; split; [done|].
      erewrite emitted_app; [|cbn [trace]; reflexivity].
      simpl. repeat split; auto. discriminate.
    + destruct (sys_socket_reopen_trace v l t w Hl Hh)
        as (k & r & evs & s' & Hexit & Hrun).
      rewrite Hrun. eexists; split; [done|].
      erewrite emitted_app; [|cbn [trace]; reflexivity].
      destruct (Hexits _ _ _ _ _ Hexit) as (Hs & Hr & Hc).
      unfold socket_calls, resolver_calls, connect_calls in *. simpl.
      rewrite !omap_app. simpl. rewrite !app_nil_r. rewrite Hs.
      repeat split; auto.
Qed.

Lemma open_and_reopen_attempt_once_witness :
  mem (start 7 [5; 0; -1]) !! 1%positive = Some (collector 7) ∧
  (OpReopen UDP6 = OpOpen UDP6 ∨ OpReopen UDP6 = OpReopen UDP6) ∧
  ∃ w',
    perform (OpReopen UDP6) (Ptr 1) (start 7 [5; 0; -1]) = Some w' ∧
    (socket_calls (emitted (start 7 [5; 0; -1]) w') = [] ∨
     socket_calls (emitted (start 7 [5; 0; -1]) w') = [(10, 2, 0)]) ∧
    (resolver_calls (emitted (start 7 [5; 0; -1]) w') = [] ∨
     resolver_calls (emitted (start 7 [5; 0; -1]) w')
       = [("localhost", "514", mk_addrinfo 0 10 2 0 0 0 0 0)]) ∧
    le (length (connect_calls (emitted (start 7 [5; 0; -1]) w'))) 1%nat ∧
    (OpReopen UDP6 = OpOpen UDP6 →
     length (socket_calls (emitted (start 7 [5; 0; -1]) w')) = 1%nat).
Proof.
  split; [reflexivity|]. split; [by right|].
  apply (open_and_reopen_attempt_once (OpReopen UDP6) UDP6 1 (collector 7)
           (start 7 [5; 0; -1])).
  - reflexivity.
  - by right.
Defined.

(** ** Teardown does not reset the handle *)

(** X10: teardown closes the descriptor but leaves it in [handle], so the
    target still reports open afterwards, and a second teardown repeats
    the first: it closes the same descriptor again and destroys the mutex
    again.  When the descriptor was live once, the second close is a
    release of something no longer live. *)
Theorem close_twice_releases_twice {P : platform} (l : positive)
    (t : network_target) (w : world P) (others : list resource) :
  mem w !! l = Some t →
  handle t ≠ -1 →
  remove_first (Descriptor (handle t)) (live (audit (trace w)))
    = Some others →
  remove_first (Descriptor (handle t)) others = None →
  ∃ w1 w2,
    sys_socket_close_network_target (Ptr l) w = Some (tt, w1) ∧
    mem w1 = mem w ∧
    sys_socket_network_target_is_open (Ptr l) w1 = Some (1, w1) ∧
    sys_socket_close_network_target (Ptr l) w1 = Some (tt, w2) ∧
    emitted w1 w2 = emitted w w1 ∧
    mutex_destroys (emitted w w2) = [l; l] ∧
    audit (trace w1) = mk_ledger others (stray (audit (trace w))) ∧
    audit (trace w2)
      = mk_ledger others
                  (stray (audit (trace w)) ++ [Descriptor (handle t)]).
Proof.
  intros Hl Hh Hlive Hgone.
  rewrite (sys_socket_close_steps l t w Hl).
  eexists; eexists. split; [done|]. cbn [mem].
  split; [done|].
  split.
  { rewrite (sys_socket_is_open_steps l t) by done.
    apply Z.eqb_neq in Hh. by rewrite Hh. }
  split; [by apply (sys_socket_close_steps l t)|].
  cbn [trace os mem].
  apply Z.eqb_neq in Hh. rewrite Hh.
  split.
  { rewrite (emitted_app w _ ([EvClose (handle t)] ++ [EvDestroyMutex l]))
      by done.
    by apply emitted_app. }
  split.
  { erewrite emitted_app; [|cbn [trace]; rewrite <- app_assoc; reflexivity].
    done. }
  unfold audit in *. rewrite !audit_from_app.
  destruct (audit_from _ (trace w)) as [lv st]. simpl in Hlive.
  unfold audit_from, account; simpl.
  rewrite Hlive. simpl. by rewrite Hgone.
Qed.

Lemma close_twice_releases_twice_witness :
  mem (opened 7 []) !! 1%positive = Some (collector 7) ∧
  handle (collector 7) ≠ -1 ∧
  remove_first (Descriptor (handle (collector 7)))
               (live (audit (trace (opened 7 [])))) = Some [] ∧
  remove_first (Descriptor (handle (collector 7))) [] = None ∧
  ∃ w1 w2,
    sys_socket_close_network_target (Ptr 1) (opened 7 []) = Some (tt, w1) ∧
    mem w1 = mem (opened 7 []) ∧
    sys_socket_network_target_is_open (Ptr 1) w1 = Some (1, w1) ∧
    sys_socket_close_network_target (Ptr 1) w1 = Some (tt, w2) ∧
    emitted w1 w2 = emitted (opened 7 []) w1 ∧
    mutex_destroys (emitted (opened 7 []) w2) = [1%positive; 1%positive] ∧
    audit (trace w1) = mk_ledger [] (stray (audit (trace (opened 7 [])))) ∧
    audit (trace w2)
      = mk_ledger []
                  (stray (audit (trace (opened 7 [])))
                   ++ [Descriptor (handle (collector 7))]).
Proof.
  split; [reflexivity|]. split; [discriminate|].
  split; [reflexivity|]. split; [reflexivity|].
  apply (close_twice_releases_twice 1 (collector 7) (opened 7 []) []).
  - reflexivity.
  - discriminate.
  - reflexivity.
  - reflexivity.
Defined.

(** ** Sending after an open *)

(** X11: a send after an open transmits on whatever the open left in
    [handle].  After a successful open that is the descriptor [socket]
    returned and [connect] connected; after a failed open nothing was
    connected and the sentinel itself is passed to [send]. *)
Theorem send_after_open_uses_stored_descriptor {P : platform} (v : variant)
    (l : positive) (t : network_target) (msg : list Byte.byte)
    (msg_length : Z) (w : world P) :
  mem w !! l = Some t →
  ∃ ret w1 r w2,
    sys_socket_open v (Ptr l) w = Some (ret, w1) ∧
    sys_socket_sendto_target (Ptr l) msg msg_length w1 = Some (r, w2) ∧
    (ret = Ptr l →
     ∃ fd, fd ≠ -1 ∧
           acquired (emitted w w1) !! 0%nat = Some (Descriptor fd) ∧
           connected (emitted w w1) = [fd] ∧
           send_calls (emitted w1 w2) = [fd]) ∧
    (ret = NULL →
     connected (emitted w w1) = [] ∧
     send_calls (emitted w1 w2) = [-1]).
Proof.
  intros Hl.
  destruct (sys_socket_open_trace v l t w Hl)
    as (k & r & evs & s' & Hexit & Hrun).
  rewrite Hrun.
  set (w1 := mk_world s' (<[l := set_handle r t]> (mem w))
               (trace w ++ [EvLock l] ++ evs ++ [EvUnlock l])).
  assert (Hl1 : mem w1 !! l = Some (set_handle r t))
    by (simpl; by rewrite lookup_insert_eq).
  destruct (os_send P r msg msg_length 0 s') as [r2 s2] eqn:Hs.
  pose proof (sys_socket_sendto_steps l (set_handle r t) msg msg_length w1
                r2 s2 Hl1 Hs) as Hsend.
  eexists; exists w1; eexists; eexists.
  split; [done|]. split; [exact Hsend|].
  rewrite (emitted_app w w1 ([EvLock l] ++ evs ++ [EvUnlock l])) by done.
  erewrite (emitted_app w1); [|cbn [trace]; reflexivity].
  cbn [handle set_handle].
  assert (Hcalls :
    send_calls ([EvLock l; EvSend r msg msg_length 0 r2; EvUnlock l]
                ++ (if to_int r2 =? -1
                    then [EvRaise SOCKET_SEND_FAILURE
                            L10N_SEND_SYS_SOCKET_FAILED_ERROR_MESSAGE
                            (os_errno P s2) L10N_ERRNO_ERROR_CODE_TYPE]
                    else [])) = [r])
    by (by destruct (to_int r2 =? -1)).
  rewrite Hcalls. clear Hcalls Hsend Hl1 w1 Hrun Hs.
  unfold acquired, connected.
  destruct Hexit as [s1 Hso | h s1 rc a sg Hso Hh Hg Hrc
                    | h s1 a sg s3 Hso Hh Hg Hc
                    | h s1 a sg c s3 Hso Hh Hg Hc Hcn]; simpl;
    try (split; [discriminate | done]).
  assert (Hh' : (h =? -1) = false) by by apply Z.eqb_neq.
  assert (Hcn' : (c =? -1) = false) by by apply Z.eqb_neq.
  rewrite Hh', Hcn'. split; [|discriminate].
  intros _. by exists h.
Qed.

Lemma send_after_open_uses_stored_descriptor_witness :
  mem (start (-1) [5; 0; 0; 2]) !! 1%positive = Some (collector (-1)) ∧
  ∃ ret w1 r w2,
    sys_socket_open TCP4 (Ptr 1) (start (-1) [5; 0; 0; 2])
      = Some (ret, w1) ∧
    sys_socket_sendto_target (Ptr 1) [Byte.x68; Byte.x69] 2 w1
      = Some (r, w2) ∧
    (ret = Ptr 1 →
     ∃ fd, fd ≠ -1 ∧
           acquired (emitted (start (-1) [5; 0; 0; 2]) w1) !! 0%nat
             = Some (Descriptor fd) ∧
           connected (emitted (start (-1) [5; 0; 0; 2]) w1) = [fd] ∧
           send_calls (emitted w1 w2) = [fd]) ∧
    (ret = NULL →
     connected (emitted (start (-1) [5; 0; 0; 2]) w1) = [] ∧
     send_calls (emitted w1 w2) = [-1]).
Proof.
  split; [reflexivity|].
  apply (send_after_open_uses_stored_descriptor TCP4 1 (collector (-1))
           [Byte.x68; Byte.x69] 2 (start (-1) [5; 0; 0; 2])).
  reflexivity.
Defined.

(** ** The accounting across any sequence of operations *)

Section Ledgers.
Context {P : platform}.
Implicit Types (w : world P) (l : positive) (t : network_target)
  (v : variant) (A : ledger).

(** What one operation does to the target and to the accounting. *)
Lemma perform_ledger (op : operation) l t w :
  mem w !! l = Some t →
  ∃ w' t',
    perform op (Ptr l) w = Some w' ∧
    mem w' = <[l := t']> (mem w) ∧
    audit (trace w')
      = match op with
        | OpOpen _ =>
            mk_ledger (if handle t' =? -1
                       then live (audit (trace w))
                       else Descriptor (handle t') :: live (audit (trace w)))
                      (stray (audit (trace w)))
        | OpReopen _ =>
            if handle t =? -1 then audit (trace w)
            else
              let B := account (audit (trace w)) (EvClose (handle t)) in
              mk_ledger (if handle t' =? -1
                         then live B
                         else Descriptor (handle t') :: live B)
                        (stray B)
        | _ => audit (trace w)
        end ∧
    match op with
    | OpOpen _ => True
    | OpReopen _ => handle t = -1 → t' = t
    | _ => t' = t
    end.
Proof.
  intros Hl.
  assert (Hexit_audit : ∀ (s s' : os_state P) dest service d ty p k r evs A,
            open_socket_exit dest service d ty p s k r evs s' →
            audit_from A evs
            = mk_ledger (if r =? -1 then live A else Descriptor r :: live A)
                        (stray A)).
  { intros s s' dest service d ty p k r evs A Hexit.
    rewrite (exit_audit _ _ _ _ _ _ _ _ _ _ Hexit).
    pose proof (exit_sentinel_iff_failed _ _ _ _ _ _ _ _ _ _ Hexit) as Hsen.
    destruct (Z.eqb_spec r (-1)) as [Hr | Hr].
    - apply Hsen in Hr. by destruct k.
    - destruct k; try done; exfalso; apply Hr, Hsen; done. }
  destruct op as [v | v | msg msg_length |]; simpl.
  - destruct (sys_socket_open_trace v l t w Hl)
      as (k & r & evs & s' & Hexit & Hrun).
    rewrite Hrun. eexists; exists (set_handle r t).
    split; [done|]. cbn [mem snd]. split; [done|]. split; [|done].
    cbn [trace handle set_handle snd]. unfold audit.
    rewrite audit_from_app, audit_from_critical_section.
    by eapply Hexit_audit.
  - destruct (Z.eqb_spec (handle t) (-1)) as [Hh | Hh].
    + rewrite (sys_socket_reopen_closed_steps v l t w Hl Hh).
      eexists; exists t. split; [done|]. cbn [mem trace snd].
      split; [by rewrite insert_id|]. split; [|done].
      unfold audit. rewrite audit_from_app.
      by destruct (audit_from _ (trace w)).
    + destruct (sys_socket_reopen_trace v l t w Hl Hh)
        as (k & r & evs & s' & Hexit & Hrun).
      rewrite Hrun. eexists; exists (set_handle r t).
      split; [done|]. cbn [mem snd]. split; [done|]. split; [|done].
      cbn [trace handle set_handle snd]. unfold audit.
      change ([EvLock l; EvClose (handle t)] ++ evs ++ [EvUnlock l])
        with ([EvLock l] ++ ([EvClose (handle t)] ++ evs) ++ [EvUnlock l]).
      rewrite audit_from_app, audit_from_critical_section, audit_from_app.
      by erewrite Hexit_audit.
  - destruct (os_send P (handle t) msg msg_length 0 (os w)) as [r s'] eqn:Hs.
    rewrite (sys_socket_sendto_steps l t msg msg_length w r s' Hl Hs).
    eexists; exists t. split; [done|]. cbn [mem trace snd].
    split; [by rewrite insert_id|]. split; [|done].
    unfold audit. rewrite audit_from_app.
    destruct (audit_from _ (trace w)). by destruct (to_int r =? -1).
  - rewrite (sys_socket_is_open_steps l t w Hl).
    eexists; exists t. split; [done|]. simpl.
    split; [by rewrite insert_id|]. done.
Qed.

Lemma remove_first_elem (r : resource) (rs : list resource) :
  r ∈ rs → ∃ rest, remove_first r rs = Some rest.
Proof.
  induction rs as [|x rs IH]; intros Hin; [by apply elem_of_nil in Hin|].
  simpl. destruct (decide (x = r)) as [|Hne]; [eauto|].
  apply elem_of_cons in Hin as [-> | Hin]; [done|].
  destruct (IH Hin) as [rest ->]. eauto.
Qed.

End Ledgers.

Section Invariants.
Context {P : platform}.
Implicit Types (w : world P) (l : positive) (t : network_target)
  (v : variant).

Lemma ledger_eta (A : ledger) : mk_ledger (live A) (stray A) = A.
Proof. by destruct A. Qed.

Lemma account_close_head (fd : Z) (lv st : list resource) :
  account (mk_ledger (Descriptor fd :: lv) st) (EvClose fd)
  = mk_ledger lv st.
Proof. unfold account; simpl. by rewrite decide_True. Qed.

(** A reopen, a send or an is_open keeps the accounting at [base] plus the
    descriptor in the handle. *)
Lemma owns_handle_preserved (base : ledger) (ops : list operation) l w :
  owns_handle base w l →
  forallb (λ op, negb (is_open_op op)) ops = true →
  ∃ w', perform_all ops (Ptr l) w = Some w' ∧ owns_handle base w' l.
Proof.
  revert w. induction ops as [|op ops IH]; intros w Hown Hops; simpl.
  { eauto. }
  simpl in Hops. apply andb_true_iff in Hops as [Hop Hops].
  destruct Hown as (t & Hl & Haudit).
  destruct (perform_ledger op l t w Hl) as (w1 & t' & Hrun & Hmem & Hled & Ht).
  rewrite Hrun. apply IH; [|done].
  exists t'. split; [by rewrite Hmem, lookup_insert_eq|].
  rewrite Hled.
  destruct op as [v | v | msg msg_length |]; try done.
  - destruct (handle t =? -1) eqn:Hh.
    + apply Z.eqb_eq in Hh. by rewrite (Ht Hh), Hh.
    + rewrite Haudit. by rewrite account_close_head.
  - by rewrite Ht.
  - by rewrite Ht.
Qed.

End Invariants.

Section Sequences.
Context {P : platform}.
Implicit Types (w : world P) (l : positive) (t : network_target)
  (v : variant).

Lemma mutex_destroys_app (evs1 evs2 : list event) :
  mutex_destroys (evs1 ++ evs2) = mutex_destroys evs1 ++ mutex_destroys evs2.
Proof. apply omap_app. Qed.

(** No operation destroys a mutex. *)
Lemma perform_destroys_nothing (op : operation) l t w :
  mem w !! l = Some t →
  ∃ w' evs t',
    perform op (Ptr l) w = Some w' ∧
    mem w' !! l = Some t' ∧
    trace w' = trace w ++ evs ∧
    mutex_destroys evs = [].
Proof.
  intros Hl.
  destruct op as [v | v | msg msg_length |]; simpl.
  - destruct (sys_socket_open_trace v l t w Hl)
      as (k & r & evs & s' & Hexit & Hrun).
    rewrite Hrun. eexists; eexists; exists (set_handle r t).
    split; [done|]. cbn [mem trace snd].
    split; [by rewrite lookup_insert_eq|]. split; [done|].
    by destruct Hexit.
  - destruct (Z.eqb_spec (handle t) (-1)) as [Hh | Hh].
    + rewrite (sys_socket_reopen_closed_steps v l t w Hl Hh).
      eexists; eexists; exists t. split; [done|]. by cbn [mem trace snd].
    + destruct (sys_socket_reopen_trace v l t w Hl Hh)
        as (k & r & evs & s' & Hexit & Hrun).
      rewrite Hrun. eexists; eexists; exists (set_handle r t).
      split; [done|]. cbn [mem trace snd].
      split; [by rewrite lookup_insert_eq|]. split; [done|].
      by destruct Hexit.
  - destruct (os_send P (handle t) msg msg_length 0 (os w)) as [r s'] eqn:Hs.
    rewrite (sys_socket_sendto_steps l t msg msg_length w r s' Hl Hs).
    eexists; eexists; exists t. split; [done|]. cbn [mem trace snd].
    split; [done|]. split; [done|]. by destruct (to_int r =? -1).
  - rewrite (sys_socket_is_open_steps l t w Hl).
    eexists; exists []; exists t. split; [done|]. cbn [mem trace snd].
    split; [done|]. split; [by rewrite app_nil_r | done].
Qed.

Lemma perform_all_destroys_nothing (ops : list operation) l t w :
  mem w !! l = Some t →
  ∃ w' evs,
    perform_all ops (Ptr l) w = Some w' ∧
    trace w' = trace w ++ evs ∧
    mutex_destroys evs = [].
Proof.
  revert t w. induction ops as [|op ops IH]; intros t w Hl; simpl.
  { exists w, []. by rewrite app_nil_r. }
  destruct (perform_destroys_nothing op l t w Hl)
    as (w1 & evs1 & t1 & Hrun & Hl1 & Htr1 & Hd1).
  rewrite Hrun.
  destruct (IH t1 w1 Hl1) as (w' & evs & Hall & Htr & Hd).
  exists w', (evs1 ++ evs). split; [done|].
  split; [by rewrite Htr, Htr1, app_assoc|].
  by rewrite mutex_destroys_app, Hd1, Hd.
Qed.

(** The handle stays the sentinel or a live descriptor, and nothing is
    released that was not live, across any sequence of operations. *)
Lemma handle_valid_preserved (ops : list operation) l w :
  handle_valid w l →
  ∃ w',
    perform_all ops (Ptr l) w = Some w' ∧
    handle_valid w' l ∧
    stray (audit (trace w')) = stray (audit (trace w)).
Proof.
  revert w. induction ops as [|op ops IH]; intros w Hvalid; simpl.
  { eauto. }
  destruct Hvalid as (t & Hl & Hv).
  destruct (perform_ledger op l t w Hl) as (w1 & t' & Hrun & Hmem & Hled & Ht).
  rewrite Hrun.
  assert (Hl1 : mem w1 !! l = Some t') by by rewrite Hmem, lookup_insert_eq.
  assert (Hstep : handle_valid w1 l ∧
                  stray (audit (trace w1)) = stray (audit (trace w))).
  { unfold handle_valid.
    destruct op as [v | v | msg msg_length |].
    - split; [|by rewrite Hled]. exists t'. split; [done|].
      destruct (Z.eqb_spec (handle t') (-1)); [by left | right].
      rewrite Hled. apply list_elem_of_here.
    - destruct (Z.eqb_spec (handle t) (-1)) as [Hh | Hh].
      + split; [|by rewrite Hled]. exists t'. split; [done|].
        left. by rewrite (Ht Hh).
      + destruct Hv as [|Hin]; [done|].
        destruct (remove_first_elem _ _ Hin) as [rest Hrest].
        assert (HB : account (audit (trace w)) (EvClose (handle t))
                     = mk_ledger rest (stray (audit (trace w)))).
        { unfold account; simpl. by rewrite Hrest. }
        rewrite HB in Hled. simpl in Hled.
        split; [|by rewrite Hled]. exists t'. split; [done|].
        destruct (Z.eqb_spec (handle t') (-1)); [by left | right].
        rewrite Hled. apply list_elem_of_here.
    - rewrite Hled. split; [|done]. exists t.
      split; [by rewrite Hl1, Ht | done].
    - rewrite Hled. split; [|done]. exists t.
      split; [by rewrite Hl1, Ht | done]. }
  destruct Hstep as [Hvalid1 Hstray1].
  destruct (IH w1 Hvalid1) as (w' & Hall & Hvalid' & Hstray').
  exists w'. split; [done|]. split; [done|]. congruence.
Qed.

(** An open, a sequence of reopens, sends and queries, and a teardown,
    as one run. *)
Lemma lifecycle_run v (ops : list operation) l t w :
  mem w !! l = Some t →
  forallb (λ op, negb (is_open_op op)) ops = true →
  ∃ ret w1 w2 w3 evs,
    sys_socket_open v (Ptr l) w = Some (ret, w1) ∧
    perform_all ops (Ptr l) w1 = Some w2 ∧
    sys_socket_close_network_target (Ptr l) w2 = Some (tt, w3) ∧
    audit (trace w3) = audit (trace w) ∧
    trace w3 = trace w ++ evs ∧
    mutex_destroys evs = [l].
Proof.
  intros Hl Hops.
  destruct (perform_ledger (OpOpen v) l t w Hl)
    as (w1 & t1 & Hrun & Hmem & Hled & _).
  destruct (perform_destroys_nothing (OpOpen v) l t w Hl)
    as (w1' & evs1 & t1' & Hrun' & _ & Htr1 & Hd1).
  rewrite Hrun in Hrun'. injection Hrun' as <-.
  simpl in Hrun.
  destruct (sys_socket_open v (Ptr l) w) as [[ret w1']|] eqn:Hopen;
    [|done].
  simpl in Hrun. injection Hrun as ->.
  assert (Hl1 : mem w1 !! l = Some t1) by by rewrite Hmem, lookup_insert_eq.
  assert (Hown : owns_handle (audit (trace w)) w1 l) by by exists t1.
  destruct (owns_handle_preserved _ ops l w1 Hown Hops)
    as (w2 & Hall & (t2 & Hl2 & Haudit2)).
  destruct (perform_all_destroys_nothing ops l t1 w1 Hl1)
    as (w2' & evs2 & Hall' & Htr2 & Hd2).
  rewrite Hall in Hall'. injection Hall' as <-.
  exists ret, w1, w2. eexists.
  exists (evs1 ++ evs2
          ++ (if handle t2 =? -1 then [] else [EvClose (handle t2)])
          ++ [EvDestroyMutex l]).
  split; [done|]. split; [done|].
  split; [by apply (sys_socket_close_steps l t2)|].
  cbn [trace]. split; [|split].
  - unfold audit in *. rewrite audit_from_app, Haudit2.
    destruct (handle t2 =? -1); simpl.
    + unfold account; simpl. apply ledger_eta.
    + unfold audit_from; simpl.
      rewrite account_close_head. unfold account; simpl. apply ledger_eta.
  - by rewrite Htr2, Htr1, <- !app_assoc.
  - rewrite !mutex_destroys_app, Hd1, Hd2.
    by destruct (handle t2 =? -1).
Qed.

End Sequences.

(** X12: whatever sequence of opens, reopens, sends and is_open queries a
    caller has performed on a target whose handle was the sentinel or a
    live descriptor, the handle is again the sentinel or a live
    descriptor, and no descriptor has been released that was not live:
    nothing is closed twice. *)
Theorem handle_stays_valid {P : platform} (ops : list operation)
    (l : positive) (w w' : world P) :
  handle_valid w l →
  perform_all ops (Ptr l) w = Some w' →
  handle_valid w' l ∧
  stray (audit (trace w')) = stray (audit (trace w)).
Proof.
  intros Hvalid Hrun.
  destruct (handle_valid_preserved ops l w Hvalid)
    as (w0 & Hrun0 & Hvalid0 & Hstray0).
  rewrite Hrun0 in Hrun. by injection Hrun as <-.
Qed.

Lemma handle_stays_valid_witness :
  handle_valid (start (-1) [5; 0; 0; 2; 6; 0; -1]) 1 ∧
  ∃ w',
    perform_all [OpOpen TCP4; OpSend [Byte.x68; Byte.x69] 2; OpReopen TCP4;
                 OpIsOpen; OpReopen UDP4]
                (Ptr 1) (start (-1) [5; 0; 0; 2; 6; 0; -1]) = Some w' ∧
    handle_valid w' 1 ∧
    stray (audit (trace w'))
    = stray (audit (trace (start (-1) [5; 0; 0; 2; 6; 0; -1]))).
Proof.
  assert (H : handle_valid (start (-1) [5; 0; 0; 2; 6; 0; -1]) 1).
  { exists (collector (-1)). split; [reflexivity | left; reflexivity]. }
  split; [exact H|].
  eexists. split; [vm_compute; reflexivity|].
  apply (handle_stays_valid
           [OpOpen TCP4; OpSend [Byte.x68; Byte.x69] 2; OpReopen TCP4;
            OpIsOpen; OpReopen UDP4]
           1 (start (-1) [5; 0; 0; 2; 6; 0; -1])).
  - exact H.
  - vm_compute; reflexivity.
Defined.

(** X13: a whole life of a target leaves nothing behind.  After an open,
    then any sequence of reopens, sends and is_open queries, then a
    teardown, the accounting is the accounting before the open, whether
    each connect attempt on the way succeeded or failed, and over the
    whole life the mutex has been destroyed exactly once. *)
Theorem lifecycle_returns_every_descriptor {P : platform} (v : variant)
    (ops : list operation) (l : positive) (t : network_target)
    (w w1 w2 w3 : world P) (ret : ptr) :
  mem w !! l = Some t →
  forallb (λ op, negb (is_open_op op)) ops = true →
  sys_socket_open v (Ptr l) w = Some (ret, w1) →
  perform_all ops (Ptr l) w1 = Some w2 →
  sys_socket_close_network_target (Ptr l) w2 = Some (tt, w3) →
  audit (trace w3) = audit (trace w) ∧
  mutex_destroys (emitted w w3) = [l].
Proof.
  intros Hl Hops Hopen Hall Hclose.
  destruct (lifecycle_run v ops l t w Hl Hops)
    as (ret' & w1' & w2' & w3' & evs & Hopen' & Hall' & Hclose' & Haudit
        & Htrace & Hdestroys).
  rewrite Hopen in Hopen'. injection Hopen' as <- <-.
  rewrite Hall in Hall'. injection Hall' as <-.
  rewrite Hclose in Hclose'. injection Hclose' as <-.
  split; [done|]. by rewrite (emitted_app w w3 evs).
Qed.

Lemma lifecycle_returns_every_descriptor_witness :
  mem (start (-1) [5; 0; 0; 2; 6; 0; -1]) !! 1%positive
    = Some (collector (-1)) ∧
  forallb (λ op, negb (is_open_op op))
          [OpSend [Byte.x68; Byte.x69] 2; OpReopen TCP4; OpIsOpen] = true ∧
  ∃ ret w1 w2 w3,
    sys_socket_open TCP4 (Ptr 1) (start (-1) [5; 0; 0; 2; 6; 0; -1])
      = Some (ret, w1) ∧
    perform_all [OpSend [Byte.x68; Byte.x69] 2; OpReopen TCP4; OpIsOpen]
                (Ptr 1) w1 = Some w2 ∧
    sys_socket_close_network_target (Ptr 1) w2 = Some (tt, w3) ∧
    audit (trace w3) = audit (trace (start (-1) [5; 0; 0; 2; 6; 0; -1])) ∧
    mutex_destroys (emitted (start (-1) [5; 0; 0; 2; 6; 0; -1]) w3)
    = [1%positive].
Proof.
  split; [reflexivity|]. split; [reflexivity|].
  eexists; eexists; eexists; eexists.
  split; [vm_compute; reflexivity|].
  split; [vm_compute; reflexivity|].
  split; [vm_compute; reflexivity|].
  eapply (lifecycle_returns_every_descriptor TCP4
            [OpSend [Byte.x68; Byte.x69] 2; OpReopen TCP4; OpIsOpen]
            1 (collector (-1)) (start (-1) [5; 0; 0; 2; 6; 0; -1])).
  - reflexivity.
  - reflexivity.
  - vm_compute; reflexivity.
  - vm_compute; reflexivity.
  - vm_compute; reflexivity.
Defined.
